(** * Mortalidad materna (Antioquia): the dashboard's data pipeline

    A shallow embedding of [app.py]: the load-time preparation of the CSV
    table (coercion of the count columns, normalisation of the municipality
    code, the rate per 100 000), the historical aggregate per municipality,
    and the Dash callback [update_dashboard] that recomputes the five figures
    and the summary on every change of the (year, region) selection.

    Conventions.
    - A pandas [int64] column is a list of [Z]; the sums NumPy computes wrap
      around at 64 bits ([wrap64]).
    - A [float64] value is a primitive binary64 float; a rate that pandas
      holds as NaN ("no value") is [None].
    - A Python [str] whose characters are classified or counted (the
      municipality code, the identifier of a shape) is the list of its code
      points ([str]); a text that is only compared, copied or joined (a name,
      a region, a message) is a [string], the bytes of its UTF-8 writing,
      whose equality and order are those of the code points.
    - The plotting library is outside the repository: its figure constructors
      are the fields of a [plotly] record, each of which may raise. *)

From Stdlib Require Import ZArith NArith List Sorted String Ascii Bool Lia.
From Stdlib Require Import OrderedTypeEx DecimalString.
From Stdlib Require Import Floats.PrimFloat Floats.SpecFloat Floats.FloatOps Floats.FloatAxioms.
Import ListNotations.

Open Scope Z_scope.

(* ===================================================================== *)
(** ** Python and pandas primitives                                        *)
(* ===================================================================== *)

Module Py.

(** A [str]: its code points, in order. *)
Definition str : Type := list N.

(** The [str] of a literal written with ASCII characters only. *)
Definition lit (s : string) : str := map N_of_ascii (list_ascii_of_string s).

(** The code points of the Unicode category Nd (decimal digit), in ranges:
    the class [\d] of a pattern over [str] (Unicode 14.0, as in CPython 3.11). *)
Definition decimal_ranges : list (N * N) :=
  (
  [ (48, 57); (1632, 1641); (1776, 1785); (1984, 1993); (2406, 2415); (2534, 2543);
    (2662, 2671); (2790, 2799); (2918, 2927); (3046, 3055); (3174, 3183); (3302, 3311);
    (3430, 3439); (3558, 3567); (3664, 3673); (3792, 3801); (3872, 3881); (4160, 4169);
    (4240, 4249); (6112, 6121); (6160, 6169); (6470, 6479); (6608, 6617); (6784, 6793);
    (6800, 6809); (6992, 7001); (7088, 7097); (7232, 7241); (7248, 7257);
    (42528, 42537); (43216, 43225); (43264, 43273); (43472, 43481); (43504, 43513);
    (43600, 43609); (44016, 44025); (65296, 65305); (66720, 66729); (68912, 68921);
    (69734, 69743); (69872, 69881); (69942, 69951); (70096, 70105); (70384, 70393);
    (70736, 70745); (70864, 70873); (71248, 71257); (71360, 71369); (71472, 71481);
    (71904, 71913); (72016, 72025); (72784, 72793); (73040, 73049); (73120, 73129);
    (92768, 92777); (92864, 92873); (93008, 93017); (120782, 120831); (123200, 123209);
    (123632, 123641); (125264, 125273); (130032, 130041) ]
  )%N.

(** [re.match(r"\d", c)] for one character. *)
Definition is_digit (c : N) : bool :=
  existsb (fun r => (fst r <=? c)%N && (c <=? snd r)%N) decimal_ranges.

(** The digit zero, ["0"]. *)
Definition zero : N := 48%N.

Definition zeros (n : nat) : str := repeat zero n.

Definition is_sign (c : N) : bool := (c =? 43)%N || (c =? 45)%N.

(** [s.zfill(width)]: zeros are added on the left until the string has
    [width] characters, after a leading sign if there is one; a string that
    is already that long is returned as it is. *)
Definition zfill (width : nat) (s : str) : str :=
  let pad := zeros (width - List.length s) in
  match s with
  | c :: rest => if is_sign c then c :: pad ++ rest else pad ++ s
  | [] => pad
  end.

(** The longest prefix of [s] made of digits. *)
Fixpoint digit_prefix (s : str) : str :=
  match s with
  | c :: rest => if is_digit c then c :: digit_prefix rest else []
  | [] => []
  end.

(** [re.search(r"(\d+)", s)]: the leftmost match, taken greedily; [None]
    when [s] holds no digit (pandas then leaves NaN in the column). *)
Fixpoint extract_digits (s : str) : option str :=
  match s with
  | c :: rest => if is_digit c then Some (c :: digit_prefix rest) else extract_digits rest
  | [] => None
  end.

Definition all_digits (s : str) : bool := forallb is_digit s.

Definition no_digit (s : str) : bool := forallb (fun c => negb (is_digit c)) s.

(** The order of [str]: the first character that differs decides, and a
    proper prefix comes first. *)
Fixpoint str_compare (a b : str) : comparison :=
  match a, b with
  | [], [] => Eq
  | [], _ :: _ => Lt
  | _ :: _, [] => Gt
  | x :: a', y :: b' =>
      match N.compare x y with
      | Eq => str_compare a' b'
      | c => c
      end
  end.

(** [a == b] on [str]. *)
Definition str_eqb (a b : str) : bool :=
  match str_compare a b with
  | Eq => true
  | _ => false
  end.

(** [series.fillna(d)] on one cell. *)
Definition fillna {A : Type} (d : A) (o : option A) : A :=
  match o with
  | Some x => x
  | None => d
  end.

(** A two's complement 64-bit integer: what an [int64] addition leaves. *)
Definition wrap64 (z : Z) : Z := (z + 2 ^ 63) mod 2 ^ 64 - 2 ^ 63.

(** [series.sum()] of an [int64] column. *)
Definition sum64 (l : list Z) : Z := wrap64 (fold_right Z.add 0 l).

(** An [int64] converted to [float64] (round to nearest, ties to even). *)
Definition float_of_int64 (z : Z) : float :=
  SF2Prim (binary_normalize prec emax z 0 false).

(** [a / b] on NumPy integers: both operands become [float64] first. *)
Definition np_truediv (a b : Z) : float :=
  PrimFloat.div (float_of_int64 a) (float_of_int64 b).

Definition int_as_spec_float (z : Z) : spec_float :=
  match z with
  | Z0 => S754_zero false
  | Zpos p => S754_finite false p 0
  | Zneg p => S754_finite true p 0
  end.

(** [a / b] on Python [int]s: the exact quotient, rounded once. *)
Definition py_truediv (a b : Z) : float :=
  SF2Prim (SFdiv prec emax (int_as_spec_float a) (int_as_spec_float b)).

(** Insertion of a key in a list kept in increasing order without
    repetition: the order in which [groupby] and [sorted] list their keys. *)
Fixpoint insert_key {K : Type} (cmp : K -> K -> comparison) (k : K) (ks : list K) : list K :=
  match ks with
  | [] => [k]
  | k' :: rest =>
      match cmp k k' with
      | Lt => k :: ks
      | Eq => ks
      | Gt => k' :: insert_key cmp k rest
      end
  end.

Definition sorted_unique {K : Type} (cmp : K -> K -> comparison) (ks : list K) : list K :=
  fold_right (insert_key cmp) [] ks.

(** Every key is below the keys that follow it. *)
Definition increasing {K : Type} (cmp : K -> K -> comparison) (ks : list K) : Prop :=
  StronglySorted (fun a b => cmp a b = Lt) ks.

(** The first value of a column that is not NaN ([GroupBy.first]). *)
Fixpoint first_valid {A : Type} (l : list (option A)) : option A :=
  match l with
  | [] => None
  | Some x :: _ => Some x
  | None :: rest => first_valid rest
  end.

(** [series.nunique()]: the number of distinct values, NaN left out. *)
Definition nunique (l : list (option str)) : Z :=
  Z.of_nat
    (List.length
       (sorted_unique str_compare
          (fold_right (fun o acc => match o with Some s => s :: acc | None => acc end) [] l))).

(** [str(e)] of a raised exception. *)
Definition exn : Type := string.

(** What a call gives: a value, or an exception. *)
Inductive result (A : Type) : Type :=
| Ok (a : A)
| Raise (e : exn).

Arguments Ok {A} a.
Arguments Raise {A} e.

Definition rbind {A B : Type} (r : result A) (k : A -> result B) : result B :=
  match r with
  | Ok a => k a
  | Raise e => Raise e
  end.

(** The integer part of a finite [float64] (rounding toward zero). *)
Definition trunc_float (x : spec_float) : Z :=
  match x with
  | S754_finite s m e =>
      let a := match e with
               | Z0 => Z.pos m
               | Z.pos k => Z.pos m * 2 ^ Z.pos k
               | Z.neg k => Z.pos m / 2 ^ Z.pos k
               end in
      if s then - a else a
  | S754_zero _ | S754_infinity _ | S754_nan => 0
  end.

Definition in_int64 (z : Z) : bool := (- 2 ^ 63 <=? z) && (z <? 2 ^ 63).

End Py.

Import Py.

(* ===================================================================== *)
(** ** The table: raw rows, loaded records, aggregates                     *)
(* ===================================================================== *)

(** A field of a count column as [pd.to_numeric] sees it. A column whose
    fields are all integer literals is an integer column ([Integer], of the
    64-bit range); as soon as one field is empty, or has a fractional part
    or an exponent, the column is [float64] and each number in it is a
    [Float], and so is each number of a column that holds a text that is no
    number. *)
Inductive cell : Type :=
| Missing                   (* an empty field: NaN *)
| Integer (z : Z)           (* a number of an integer column *)
| Float (f : float)         (* a number of a float column: finite, inf or -inf *)
| NonNumeric (s : string).  (* any other text *)

(** A value of a numeric column. *)
Inductive number : Type :=
| Int64 (z : Z)
| Float64 (f : float).

(** One line of the CSV file. The column [Año] is an integer column: every
    line of the file has a year, written as an integer, so that [int(y)]
    and the comparison with [int(selected_year)] are those of integers (a
    file with an empty or a fractional year, which pandas reads as a column
    of floats, is not covered). [csv_CodigoMunicipio] is the field after
    [astype(str)] (a missing code reads "nan"). *)
Record raw_row : Type := {
  csv_Año : Z;
  csv_NumeroCasos : cell;
  csv_NumeroPoblacionObjetivo : cell;
  csv_CodigoMunicipio : str;
  csv_NombreMunicipio : option string;
  csv_NombreRegion : option string
}.

(** One row of [df] once the module has prepared it. *)
Record record : Type := {
  Año : Z;
  CodigoMunicipio : option str;
  NombreMunicipio : option string;
  NombreRegion : string;
  NumeroCasos : Z;
  NumeroPoblacionObjetivo : Z;
  tasa_100k : option float
}.

(** [pd.to_numeric(col, errors="coerce")]: text that is no number becomes NaN. *)
Definition to_numeric (c : cell) : number :=
  match c with
  | Integer z => Int64 z
  | Float f => Float64 f
  | Missing | NonNumeric _ => Float64 nan
  end.

(** [.fillna(0)] on a number: NaN becomes zero. *)
Definition fillna_zero (n : number) : number :=
  match n with
  | Float64 f => if PrimFloat.is_nan f then Float64 0%float else n
  | Int64 _ => n
  end.

Definition cast_error : exn :=
  "Cannot convert non-finite values (NA or inf) to integer"%string.

(** [.astype(int)]: pandas refuses a column with a value that is not finite;
    a finite one loses its fractional part (rounding toward zero), and the
    conversion of a value beyond the 64-bit range leaves the least [int64]
    (the "integer indefinite" of x86-64). The bits of an integer column are
    kept. *)
Definition astype_int (n : number) : result Z :=
  match n with
  | Int64 z => Ok (wrap64 z)
  | Float64 f =>
      if PrimFloat.is_finite f
      then
        let z := trunc_float (Prim2SF f) in
        Ok (if in_int64 z then z else - 2 ^ 63)
      else Raise cast_error
  end.

(** [pd.to_numeric(..., errors="coerce").fillna(0).astype(int)] *)
Definition coerce_count (c : cell) : result Z :=
  astype_int (fillna_zero (to_numeric c)).

(** [astype(str).str.extract(r"(\d+)", expand=False).str.zfill(5)]; on a run
    of digits the [zfill] of pandas and the one of [str] agree. *)
Definition normalize_code (raw : str) : option str :=
  option_map (zfill 5) (extract_digits raw).

Definition sin_region : string := "Sin región".

(** [df["tasa_100k"] = np.nan], then the rows with a positive population get
    [(NumeroCasos / NumeroPoblacionObjetivo) * 100000]. *)
Definition record_tasa (casos pob : Z) : option float :=
  if 0 <? pob then Some (PrimFloat.mul (np_truediv casos pob) 100000%float) else None.

(** The preparation of one line; it raises where [astype(int)] does. *)
Definition load_row (r : raw_row) : result record :=
  rbind (coerce_count (csv_NumeroCasos r)) (fun casos =>
  rbind (coerce_count (csv_NumeroPoblacionObjetivo r)) (fun pob =>
  Ok {| Año := csv_Año r;
        CodigoMunicipio := normalize_code (csv_CodigoMunicipio r);
        NombreMunicipio := csv_NombreMunicipio r;
        NombreRegion := fillna sin_region (csv_NombreRegion r);
        NumeroCasos := casos;
        NumeroPoblacionObjetivo := pob;
        tasa_100k := record_tasa casos pob |})).

(** The preparation of the table: an exception of a line is the exception
    of the import, which then leaves no table. *)
Fixpoint load_csv (rows : list raw_row) : result (list record) :=
  match rows with
  | [] => Ok []
  | r :: rest =>
      rbind (load_row r) (fun x =>
      rbind (load_csv rest) (fun xs => Ok (x :: xs)))
  end.

(** The rate of an aggregate: [(casos / pob.replace({0: np.nan})) * 100000]. *)
Definition aggregate_tasa (casos pob : Z) : option float :=
  if pob =? 0 then None else Some (PrimFloat.mul (np_truediv casos pob) 100000%float).

(** *** The historical aggregate per municipality ([muni_agg]) *)

Record muni_row : Type := {
  m_CodigoMunicipio : str;
  m_NumeroCasos : Z;
  m_NumeroPoblacionObjetivo : Z;
  m_NombreMunicipio : option string;
  m_NombreRegion : option string;
  m_tasa_100k : option float
}.

(** The keys [groupby("CodigoMunicipio")] sees: rows without a code are dropped. *)
Fixpoint defined_codes (rows : list record) : list str :=
  match rows with
  | [] => []
  | r :: rest =>
      match CodigoMunicipio r with
      | Some c => c :: defined_codes rest
      | None => defined_codes rest
      end
  end.

(** The row has a municipality code (the extraction found digits). *)
Definition has_codigo (r : record) : bool :=
  match CodigoMunicipio r with
  | Some _ => true
  | None => false
  end.

Definition has_code (c : str) (r : record) : bool :=
  match CodigoMunicipio r with
  | Some c' => str_eqb c' c
  | None => false
  end.

Definition muni_agg_row (rows : list record) (c : str) : muni_row :=
  let g := filter (has_code c) rows in
  let casos := sum64 (map NumeroCasos g) in
  let pob := sum64 (map NumeroPoblacionObjetivo g) in
  {| m_CodigoMunicipio := zfill 5 c;
     m_NumeroCasos := casos;
     m_NumeroPoblacionObjetivo := pob;
     m_NombreMunicipio := first_valid (map NombreMunicipio g);
     m_NombreRegion := first_valid (map (fun r => Some (NombreRegion r)) g);
     m_tasa_100k := aggregate_tasa casos pob |}.

Definition build_muni_agg (rows : list record) : list muni_row :=
  map (muni_agg_row rows) (sorted_unique str_compare (defined_codes rows)).

(** *** The yearly series ([temporal_data]) *)

(** A row of [filtered_df.groupby("Año", as_index=False).agg(...)]. *)
Record year_sum : Type := {
  ys_Año : Z;
  ys_NumeroCasos : Z;
  ys_NumeroPoblacionObjetivo : Z
}.

(** ... and once the column [tasa_100k] has been added. *)
Record temporal_row : Type := {
  t_Año : Z;
  t_NumeroCasos : Z;
  t_NumeroPoblacionObjetivo : Z;
  t_tasa_100k : option float
}.

Definition in_year (y : Z) (r : record) : bool := Año r =? y.

Definition year_sum_of (rows : list record) (y : Z) : year_sum :=
  let g := filter (in_year y) rows in
  {| ys_Año := y;
     ys_NumeroCasos := sum64 (map NumeroCasos g);
     ys_NumeroPoblacionObjetivo := sum64 (map NumeroPoblacionObjetivo g) |}.

Definition groupby_year (rows : list record) : list year_sum :=
  map (year_sum_of rows) (sorted_unique Z.compare (map Año rows)).

(** The total, over the groups of the years [ks], of the column [f] (plain
    integers, before any wrap-around). *)
Fixpoint groups_total (f : record -> Z) (ks : list Z) (rows : list record) : Z :=
  match ks with
  | [] => 0
  | k :: ks' => fold_right Z.add 0 (map f (filter (in_year k) rows)) + groups_total f ks' rows
  end.

Definition with_tasa (s : year_sum) : temporal_row :=
  {| t_Año := ys_Año s;
     t_NumeroCasos := ys_NumeroCasos s;
     t_NumeroPoblacionObjetivo := ys_NumeroPoblacionObjetivo s;
     t_tasa_100k := aggregate_tasa (ys_NumeroCasos s) (ys_NumeroPoblacionObjetivo s) |}.

Definition temporal_data (rows : list record) : list temporal_row :=
  map with_tasa (groupby_year rows).

(** *** The two filters of the callback *)

Definition in_region (region : string) (r : record) : bool :=
  String.eqb (NombreRegion r) region.

(** [df if selected_region == "all" else df[df["NombreRegion"] == selected_region]] *)
Definition filter_region (rows : list record) (selected_region : string) : list record :=
  if String.eqb selected_region "all" then rows else filter (in_region selected_region) rows.

(** [filtered_df[filtered_df["Año"] == int(selected_year)]] *)
Definition filter_year (rows : list record) (selected_year : Z) : list record :=
  filter (in_year selected_year) rows.

(** *** The summary statistics *)

Record stats : Type := {
  total_casos : Z;
  total_pob : Z;
  tasa_prom : option float;
  municipios_afectados : Z;
  total_mun : Z
}.

Definition has_cases (r : record) : bool := 0 <? NumeroCasos r.

Definition summary (filtered_df : list record) : stats :=
  let casos := sum64 (map NumeroCasos filtered_df) in
  let pob := sum64 (map NumeroPoblacionObjetivo filtered_df) in
  {| total_casos := casos;
     total_pob := pob;
     tasa_prom :=
       if 0 <? pob then Some (PrimFloat.mul (py_truediv casos pob) 100000%float) else None;
     municipios_afectados := Z.of_nat (List.length (filter has_cases filtered_df));
     total_mun := nunique (map CodigoMunicipio filtered_df) |}.

(** The count of municipalities with cases, as the summary line
    "Municipios afectados: a/b" words it: the distinct codes among the rows
    with [NumeroCasos > 0]. *)
Definition affected_municipalities (filtered_df : list record) : Z :=
  nunique (map CodigoMunicipio (filter has_cases filtered_df)).

(* ===================================================================== *)
(** ** Boundary shapes and the plotting library                            *)
(* ===================================================================== *)

(** A feature of the GeoJSON file: its top-level identifier and the two
    properties the module looks a code up in, each a JSON string when it is
    there. *)
Record feature : Type := {
  feat_id : option str;
  prop_CodigoMunicipio : option str;
  prop_codigo : option str
}.

(** Python truth of a value that is [None] or a string. *)
Definition truthy (o : option str) : bool :=
  match o with
  | Some (_ :: _) => true
  | Some [] | None => false
  end.

(** The loop over [feats]: a feature without identifier takes the code of its
    properties, padded to five characters. *)
Definition assign_id (f : feature) : feature :=
  if truthy (feat_id f) then f
  else
    let code := if truthy (prop_CodigoMunicipio f) then prop_CodigoMunicipio f else prop_codigo f in
    if truthy code
    then {| feat_id := option_map (zfill 5) code;
            prop_CodigoMunicipio := prop_CodigoMunicipio f;
            prop_codigo := prop_codigo f |}
    else f.

Definition shape_ids (feats : list feature) : list str :=
  flat_map (fun f => if truthy (feat_id f) then [zfill 5 (fillna [] (feat_id f))] else []) feats.

(** The module's other globals. [global_vmax] is the 0.95 quantile of the
    aggregate rates, computed once by pandas. *)
Record globals : Type := {
  geojson_data : list feature;
  available_ids : list str;
  global_vmax : option float
}.

(** The GeoJSON part of the start-up: the features with their identifiers
    and the set of these; a missing file leaves no shapes. *)
Definition load_geojson (file : option (list feature)) : list feature * list str :=
  match file with
  | Some feats => (map assign_id feats, shape_ids (map assign_id feats))
  | None => ([], [])
  end.

Definition module_globals (file : option (list feature)) (vmax : option float) : globals :=
  {| geojson_data := fst (load_geojson file);
     available_ids := snd (load_geojson file);
     global_vmax := vmax |}.

(** The constructors of plotly the callback uses, with the data it passes
    them. Each may raise, and none changes the frame it reads; [go_empty] is
    [go.Figure()] given a title. *)
Record plotly : Type := {
  Figure : Type;
  go_choropleth :
    list feature -> list str -> list float -> option float -> list (string * float) ->
    result Figure;
  go_time_series : list Z -> list (option float) -> list Z -> result Figure;
  px_histogram : list record -> result Figure;
  px_box : list record -> result Figure;
  px_scatter : list record -> result Figure;
  go_empty : string -> Figure
}.

(** The children of the summary panel. *)
Inductive html : Type :=
| SummaryDiv (casos : Z) (tasa : option float) (afectados total : Z) (year : Z) (region : string)
| ErrorDiv (msg : string).

(** The six outputs of the callback, named after the components they feed. *)
Record outputs (F : Type) : Type := {
  map_graph : F;
  time_series_graph : F;
  distribution_graph : F;
  region_boxplot : F;
  scatter_plot : F;
  stats_summary : html
}.

Arguments Build_outputs {F}.
Arguments map_graph {F}.
Arguments time_series_graph {F}.
Arguments distribution_graph {F}.
Arguments region_boxplot {F}.
Arguments scatter_plot {F}.
Arguments stats_summary {F}.

(* ===================================================================== *)
(** ** Objects, references and the callback                                *)
(* ===================================================================== *)

(** The data frames the program holds. Python names refer to objects: a frame
    lives at an address of the heap, and two names may share one. A name
    always refers to an object of the expected kind in the Python program;
    the model raises where an address holds none ([read], [read_rows], ...). *)
Inductive frame : Type :=
| DataFrame (rows : list record)
| MuniFrame (rows : list muni_row)
| YearFrame (rows : list year_sum)
| TemporalFrame (rows : list temporal_row).

Definition addr : Type := nat.
Definition heap : Type := list frame.

(** The two frames built when the module is imported. *)
Definition df : addr := 0%nat.
Definition muni_agg : addr := 1%nat.

(** The two frames the import leaves, from the prepared table. *)
Definition startup (rows : list record) : heap :=
  [DataFrame rows; MuniFrame (build_muni_agg rows)].

(** The import as a whole: it fails where the preparation of the table does. *)
Definition import_module (csv : list raw_row) : result heap :=
  rbind (load_csv csv) (fun rows => Ok (startup rows)).

(** A computation on the heap that returns a value or raises. *)
Definition M (A : Type) : Type := heap -> result A * heap.

Definition ret {A : Type} (a : A) : M A := fun h => (Ok a, h).

Definition raise {A : Type} (e : exn) : M A := fun h => (Raise e, h).

Definition bind {A B : Type} (c : M A) (k : A -> M B) : M B :=
  fun h =>
    match c h with
    | (Ok a, h') => k a h'
    | (Raise e, h') => (Raise e, h')
    end.

Definition lift {A : Type} (r : result A) : M A := fun h => (r, h).

Notation "x <- c ;; k" := (bind c (fun x => k))
  (at level 61, c at next level, right associativity).
Notation "c ;;; k" := (bind c (fun _ => k))
  (at level 61, right associativity).

Definition alloc (f : frame) : M addr :=
  fun h => (Ok (List.length h), h ++ [f]).

Definition read (a : addr) : M frame :=
  fun h =>
    match nth_error h a with
    | Some f => (Ok f, h)
    | None => (Raise "NameError"%string, h)
    end.

Fixpoint update_nth {A : Type} (n : nat) (x : A) (l : list A) : list A :=
  match l, n with
  | [], _ => []
  | _ :: rest, O => x :: rest
  | y :: rest, S n' => y :: update_nth n' x rest
  end.

Definition write (a : addr) (f : frame) : M unit :=
  fun h => (Ok tt, update_nth a f h).

Definition read_rows (a : addr) : M (list record) :=
  f <- read a ;;
  match f with
  | DataFrame rows => ret rows
  | _ => raise "TypeError"%string
  end.

Definition read_muni (a : addr) : M (list muni_row) :=
  f <- read a ;;
  match f with
  | MuniFrame rows => ret rows
  | _ => raise "TypeError"%string
  end.

Definition read_temporal (a : addr) : M (list temporal_row) :=
  f <- read a ;;
  match f with
  | TemporalFrame rows => ret rows
  | _ => raise "TypeError"%string
  end.

(** [frame[frame["NombreRegion"] == region]]: a new frame. *)
Definition select_region (a : addr) (region : string) : M addr :=
  rows <- read_rows a ;;
  alloc (DataFrame (filter (in_region region) rows)).

(** [frame[frame["Año"] == year]]: a new frame. *)
Definition select_year (a : addr) (year : Z) : M addr :=
  rows <- read_rows a ;;
  alloc (DataFrame (filter_year rows year)).

(** [frame.copy()] *)
Definition copy (a : addr) : M addr :=
  f <- read a ;;
  alloc f.

Definition code_in (ids : list str) (r : muni_row) : bool :=
  existsb (str_eqb (m_CodigoMunicipio r)) ids.

(** [frame[frame["CodigoMunicipio"].isin(ids)]]: a new frame. *)
Definition select_isin (a : addr) (ids : list str) : M addr :=
  rows <- read_muni a ;;
  alloc (MuniFrame (filter (code_in ids) rows)).

(** [frame.groupby("Año", as_index=False).agg(...)]: a new frame. *)
Definition groupby_agg_year (a : addr) : M addr :=
  rows <- read_rows a ;;
  alloc (YearFrame (groupby_year rows)).

(** [frame["tasa_100k"] = ...]: the frame at [a] itself gets the column. *)
Definition set_tasa_100k (a : addr) : M unit :=
  f <- read a ;;
  match f with
  | YearFrame rows => write a (TemporalFrame (map with_tasa rows))
  | _ => raise "TypeError"%string
  end.

Definition nonempty {A : Type} (l : list A) : bool :=
  match l with
  | [] => false
  | _ :: _ => true
  end.

(** [astype(str)] of a name of the aggregate: where no row of the group had
    a name, [first] left [None], which reads "None". *)
Definition name_str (o : option string) : string := fillna "None"%string o.

(** [float(global_vmax) if (global_vmax and global_vmax>0) else None] *)
Definition zmax_of (vmax : option float) : option float :=
  match vmax with
  | Some v => if PrimFloat.ltb 0%float v then Some v else None
  | None => None
  end.

(** The rate shown in the summary: "N/A" unless [np.isfinite(tasa_prom)]. *)
Definition shown_tasa (t : option float) : option float :=
  match t with
  | Some v => if PrimFloat.is_finite v then Some v else None
  | None => None
  end.

Definition region_label (selected_region : string) : string :=
  if String.eqb selected_region "all" then "Todas"%string else selected_region.

Definition stats_html (s : stats) (selected_year : Z) (selected_region : string) : html :=
  SummaryDiv (total_casos s) (shown_tasa (tasa_prom s))
    (municipios_afectados s) (total_mun s) selected_year (region_label selected_region).

Definition error_text (e : exn) : string := ("Error interno: " ++ e)%string.

Section Callback.

Variable L : plotly.
Variable G : globals.

(** The figure of the map, from the rows of [map_data]. *)
Definition map_figure (map_data : list muni_row) : result (Figure L) :=
  let z_vals := map (fun r => fillna 0%float (m_tasa_100k r)) map_data in
  let locations := map m_CodigoMunicipio map_data in
  let zmax := zmax_of (global_vmax G) in
  go_choropleth L (geojson_data G) locations z_vals zmax
    (map (fun r => (name_str (m_NombreMunicipio r), fillna 0%float (m_tasa_100k r))) map_data).

(** The figure of the yearly series, from the rows of [temporal_data]. *)
Definition time_figure (td : list temporal_row) : result (Figure L) :=
  go_time_series L (map t_Año td) (map t_tasa_100k td) (map t_NumeroCasos td).

(** The body of the [try] block. *)
Definition update_body (selected_year : Z) (selected_region : string) : M (outputs (Figure L)) :=
  filtered_df <- (if String.eqb selected_region "all" then ret df
                  else select_region df selected_region) ;;
  year_df <- select_year filtered_df selected_year ;;
  map_data <- copy muni_agg ;;
  map_data <- (if nonempty (available_ids G)
               then (sel <- select_isin map_data (available_ids G) ;; copy sel)
               else ret map_data) ;;
  md <- read_muni map_data ;;
  map_fig <- lift (map_figure md) ;;
  temporal <- groupby_agg_year filtered_df ;;
  set_tasa_100k temporal ;;;
  td <- read_temporal temporal ;;
  time_fig <- lift (time_figure td) ;;
  ydf <- read_rows year_df ;;
  dist_fig <- lift (px_histogram L ydf) ;;
  fdf <- read_rows filtered_df ;;
  box_fig <- lift (px_box L fdf) ;;
  scatter_fig <- lift (px_scatter L ydf) ;;
  ret (Build_outputs map_fig time_fig dist_fig box_fig scatter_fig
         (stats_html (summary fdf) selected_year selected_region)).

(** The [except] branch: one empty figure for the five graphs and the
    message for the summary. *)
Definition error_outputs (e : exn) : outputs (Figure L) :=
  let empty := go_empty L (error_text e) in
  Build_outputs empty empty empty empty empty (ErrorDiv (error_text e)).

Definition update_dashboard (selected_year : Z) (selected_region : string)
  : heap -> outputs (Figure L) * heap :=
  fun h =>
    match update_body selected_year selected_region h with
    | (Ok out, h') => (out, h')
    | (Raise e, h') => (error_outputs e, h')
    end.

(** *** The callback as a function of the loaded data alone *)

(** The rows the map is drawn from. *)
Definition map_rows (aggs : list muni_row) : list muni_row :=
  if nonempty (available_ids G) then filter (code_in (available_ids G)) aggs else aggs.

Definition refresh (rows : list record) (aggs : list muni_row)
    (selected_year : Z) (selected_region : string) : result (outputs (Figure L)) :=
  let filtered := filter_region rows selected_region in
  let year := filter_year filtered selected_year in
  rbind (map_figure (map_rows aggs)) (fun map_fig =>
  rbind (time_figure (temporal_data filtered)) (fun time_fig =>
  rbind (px_histogram L year) (fun dist_fig =>
  rbind (px_box L filtered) (fun box_fig =>
  rbind (px_scatter L year) (fun scatter_fig =>
  Ok (Build_outputs map_fig time_fig dist_fig box_fig scatter_fig
        (stats_html (summary filtered) selected_year selected_region))))))).

(** What the callback hands back for a result of [refresh]. *)
Definition rendered (r : result (outputs (Figure L))) : outputs (Figure L) :=
  match r with
  | Ok out => out
  | Raise e => error_outputs e
  end.

(** The loaded table and its aggregate are where the module put them. *)
Definition loaded (rows : list record) (aggs : list muni_row) (h : heap) : Prop :=
  nth_error h df = Some (DataFrame rows) /\ nth_error h muni_agg = Some (MuniFrame aggs).

(** The refresh went through the [try] block without an exception. *)
Definition completes (selected_year : Z) (selected_region : string) (h : heap) : Prop :=
  exists out h', update_body selected_year selected_region h = (Ok out, h').

End Callback.

(* ===================================================================== *)
(** ** The layout                                                          *)
(* ===================================================================== *)

(** [sorted(pd.unique(df["Año"]))] *)
Definition years (rows : list record) : list Z :=
  sorted_unique Z.compare (map Año rows).

(** [str(n)] of an [int]: its decimal writing, with a sign when negative. *)
Definition str_int (n : Z) : string := NilZero.string_of_int (Z.to_int n).

(** [max(l)]: the greatest element; an empty list raises [ValueError]. *)
Definition py_max (l : list Z) : result Z :=
  match l with
  | [] => Raise "max() arg is an empty sequence"%string
  | x :: rest => Ok (fold_left Z.max rest x)
  end.

(** A [dcc.Dropdown]: its options (label, value) and the value it starts with. *)
Record dropdown (V : Type) : Type := {
  options : list (string * V);
  value : V
}.

Arguments options {V}.
Arguments value {V}.

(** The two controls of [app.layout]; the graphs and the summary panel are
    empty until the callback fills them. *)
Record layout : Type := {
  year_dropdown : dropdown Z;
  region_dropdown : dropdown string
}.

(** [sorted(df["NombreRegion"].unique())] *)
Definition regions (rows : list record) : list string :=
  sorted_unique String.compare (map NombreRegion rows).

(** The construction of [app.layout]: [int(y)] leaves a year of an integer
    column as it is; the construction raises on a table without rows, where
    [max(years)] has nothing to choose from. *)
Definition app_layout (rows : list record) : result layout :=
  match py_max (years rows) with
  | Raise e => Raise e
  | Ok latest =>
      Ok {| year_dropdown :=
              {| options := map (fun y => (str_int y, y)) (years rows);
                 value := latest |};
            region_dropdown :=
              {| options := ("Todas"%string, "all"%string)
                            :: map (fun r => (r, r)) (regions rows);
                 value := "all"%string |} |}
  end.

(** *** What identifies a shape *)

(** [props.get("CodigoMunicipio") or props.get("codigo")] *)
Definition feature_code (f : feature) : option str :=
  if truthy (prop_CodigoMunicipio f) then prop_CodigoMunicipio f else prop_codigo f.

(** The text a feature is identified by: its own identifier when it has one,
    else the code of its properties, if any. *)
Definition feature_key (f : feature) : option str :=
  if truthy (feat_id f) then feat_id f
  else if truthy (feature_code f) then feature_code f
  else None.

(** *** Several refreshes in a row *)

(** The heap after the callback has run for each selection of [sels]. *)
Definition run_refreshes (L : plotly) (G : globals) (sels : list (Z * string)) (h : heap) : heap :=
  fold_left (fun h' sel => snd (update_dashboard L G (fst sel) (snd sel) h')) sels h.

(* ===================================================================== *)
(** ** A plotting library to run the callback on                           *)
(* ===================================================================== *)

Module Demo.

(** Figures that keep the data they were given. *)
Inductive fig : Type :=
| Choropleth (locations : list str) (z : list float) (zmax : option float)
    (customdata : list (string * float))
| TimeSeries (x : list Z) (tasa : list (option float)) (casos : list Z)
| Histogram (tasa : list (option float))
| Box (points : list (string * option float))
| Scatter (points : list (Z * option float * Z))
| Empty (title : string).

Definition size_error : exn :=
  "Invalid element(s) received for the 'size' property of scatter.marker"%string.

(** [marker.size] takes numbers of the interval [0, inf) only. *)
Definition scatter (rows : list record) : result fig :=
  if forallb (fun r => 0 <=? NumeroCasos r) rows
  then Ok (Scatter (map (fun r => (NumeroPoblacionObjetivo r, tasa_100k r, NumeroCasos r)) rows))
  else Raise size_error.

Definition lib : plotly :=
  {| Figure := fig;
     go_choropleth := fun _ locations z zmax customdata => Ok (Choropleth locations z zmax customdata);
     go_time_series := fun x tasa casos => Ok (TimeSeries x tasa casos);
     px_histogram := fun rows => Ok (Histogram (map tasa_100k rows));
     px_box := fun rows => Ok (Box (map (fun r => (NombreRegion r, tasa_100k r)) rows));
     px_scatter := scatter;
     go_empty := Empty |}.

Definition row (year : Z) (code : string) (name region : string) (casos pob : Z) : raw_row :=
  {| csv_Año := year;
     csv_NumeroCasos := Integer casos;
     csv_NumeroPoblacionObjetivo := Integer pob;
     csv_CodigoMunicipio := lit code;
     csv_NombreMunicipio := Some name;
     csv_NombreRegion := Some region |}.

(** A line of the year 2020 with nothing but its two counts. *)
Definition blank_row (casos pob : cell) : raw_row :=
  {| csv_Año := 2020;
     csv_NumeroCasos := casos;
     csv_NumeroPoblacionObjetivo := pob;
     csv_CodigoMunicipio := lit "nan";
     csv_NombreMunicipio := None;
     csv_NombreRegion := None |}.

(** The prepared record of a line that loads (a blank record otherwise). *)
Definition record_of (raw : raw_row) : record :=
  match load_row raw with
  | Ok r => r
  | Raise _ =>
      {| Año := csv_Año raw;
         CodigoMunicipio := None;
         NombreMunicipio := None;
         NombreRegion := sin_region;
         NumeroCasos := 0;
         NumeroPoblacionObjetivo := 0;
         tasa_100k := None |}
  end.

(** The prepared rows of a file whose lines all load (no row otherwise). *)
Definition table (csv : list raw_row) : list record :=
  match load_csv csv with
  | Ok rows => rows
  | Raise _ => []
  end.

(** A small table: two municipalities of two regions over two years. *)
Definition csv : list raw_row :=
  [ row 2020 "5001" "Medellín" "Valle de Aburrá" 2 100000;
    row 2020 "5002" "Abejorral" "Oriente" 0 0;
    row 2021 "5001" "Medellín" "Valle de Aburrá" 1 100000;
    row 2021 "5002" "Abejorral" "Oriente" 1 4000 ].

(** The same table with a negative count in 2021. *)
Definition csv_negative : list raw_row :=
  [ row 2020 "5001" "Medellín" "Valle de Aburrá" 2 100000;
    row 2021 "5001" "Medellín" "Valle de Aburrá" (-1) 100000 ].

(** Two regions in one year, one of them with a negative count. *)
Definition csv_negative_region : list raw_row :=
  [ row 2021 "5001" "Medellín" "Valle de Aburrá" (-1) 100000;
    row 2021 "5002" "Abejorral" "Oriente" 1 4000 ].

(** One municipality with one case in each of two years. *)
Definition csv_one_municipality : list raw_row :=
  [ row 2020 "5001" "Medellín" "Valle de Aburrá" 1 100000;
    row 2021 "5001" "Medellín" "Valle de Aburrá" 1 100000 ].

Definition shapes : globals :=
  module_globals
    (Some [ {| feat_id := Some (lit "05001"); prop_CodigoMunicipio := None; prop_codigo := None |};
            {| feat_id := None; prop_CodigoMunicipio := Some (lit "5002"); prop_codigo := None |} ])
    (Some 10%float).

End Demo.

(** More sample data: the shapes of the demonstration, one more shape that
    comes with a short identifier of its own, and a table with a row that has
    no region. *)
Module Sample.

Definition features : list feature :=
  [ {| feat_id := Some (lit "05001"); prop_CodigoMunicipio := None; prop_codigo := None |};
    {| feat_id := None; prop_CodigoMunicipio := Some (lit "5002"); prop_codigo := None |} ].

Definition short_id : feature :=
  {| feat_id := Some (lit "5004"); prop_CodigoMunicipio := None; prop_codigo := None |}.

Definition csv : list raw_row :=
  [ Demo.row 2020 "5001" "Medellín" "Valle de Aburrá" 2 100000;
    {| csv_Año := 2021;
       csv_NumeroCasos := Integer 1;
       csv_NumeroPoblacionObjetivo := Integer 4000;
       csv_CodigoMunicipio := lit "5002";
       csv_NombreMunicipio := Some "Abejorral"%string;
       csv_NombreRegion := None |} ].

End Sample.

(* ===================================================================== *)
(** ** Strings: digits, padding, extraction, order                         *)
(* ===================================================================== *)

Lemma length_zeros (n : nat) : List.length (zeros n) = n.
Proof. apply repeat_length. Qed.

Lemma all_digits_zeros (n : nat) : all_digits (zeros n) = true.
Proof. induction n; simpl; auto. Qed.

Lemma all_digits_append (s t : str) :
  all_digits (s ++ t) = all_digits s && all_digits t.
Proof. apply forallb_app. Qed.

Lemma is_digit_not_sign (c : N) : is_digit c = true -> is_sign c = false.
Proof.
  intros H. destruct (is_sign c) eqn:E; [|reflexivity].
  unfold is_sign in E. apply orb_true_iff in E.
  destruct E as [E|E]; apply N.eqb_eq in E; subst c; vm_compute in H; discriminate.
Qed.

Lemma all_digits_digit_prefix (s : str) : all_digits (digit_prefix s) = true.
Proof.
  induction s as [|c s IH]; simpl; [reflexivity|].
  destruct (is_digit c) eqn:E; simpl; [rewrite E; exact IH | reflexivity].
Qed.

(** What follows the longest digit prefix does not start with a digit. *)
Lemma digit_prefix_split (s : str) :
  exists post, s = digit_prefix s ++ post /\ digit_prefix post = [].
Proof.
  induction s as [|c s [post [E1 E2]]]; simpl.
  - exists []. split; reflexivity.
  - destruct (is_digit c) eqn:E.
    + exists post. simpl. split; [congruence | exact E2].
    + exists (c :: s). simpl. rewrite E. split; reflexivity.
Qed.

Lemma extract_digits_none (s : str) : extract_digits s = None <-> no_digit s = true.
Proof.
  induction s as [|c s IH]; simpl; [tauto|].
  destruct (is_digit c); simpl; [split; discriminate | exact IH].
Qed.

Lemma extract_digits_some (s run : str) :
  extract_digits s = Some run ->
  exists pre post,
    s = pre ++ run ++ post /\ no_digit pre = true /\
    run <> [] /\ all_digits run = true /\ digit_prefix post = [].
Proof.
  induction s as [|c s IH]; simpl; [discriminate|].
  destruct (is_digit c) eqn:E.
  - intros [= <-]. destruct (digit_prefix_split s) as [post [E1 E2]].
    exists [], post. simpl. repeat split.
    + congruence.
    + discriminate.
    + rewrite E. apply all_digits_digit_prefix.
    + exact E2.
  - intros H. destruct (IH H) as [pre [post [E1 [E2 [E3 [E4 E5]]]]]].
    exists (c :: pre), post. simpl. rewrite E. repeat split; auto. congruence.
Qed.

(** On a run of digits [zfill] only adds zeros in front. *)
Lemma zfill_digits (w : nat) (run : str) :
  all_digits run = true -> zfill w run = zeros (w - List.length run) ++ run.
Proof.
  unfold zfill. destruct run as [|c rest].
  - intros _. rewrite app_nil_r. reflexivity.
  - intros H. simpl in H. apply andb_true_iff in H. destruct H as [H _].
    rewrite (is_digit_not_sign _ H). reflexivity.
Qed.

Lemma str_compare_eq (a b : str) : str_compare a b = Eq <-> a = b.
Proof.
  revert b. induction a as [|x a IH]; intros [|y b]; simpl;
    try (split; (discriminate || reflexivity)).
  destruct (N.compare_spec x y) as [E|E|E].
  - subst y. rewrite IH. split; congruence.
  - split; [discriminate | intros [= -> _]; lia].
  - split; [discriminate | intros [= -> _]; lia].
Qed.

Lemma str_compare_gt (a b : str) : str_compare a b = Gt -> str_compare b a = Lt.
Proof.
  revert b. induction a as [|x a IH]; intros [|y b]; simpl; try discriminate; auto.
  rewrite (N.compare_antisym x y).
  destruct (N.compare x y); simpl; auto; discriminate.
Qed.

Lemma str_compare_trans (a b c : str) :
  str_compare a b = Lt -> str_compare b c = Lt -> str_compare a c = Lt.
Proof.
  revert b c. induction a as [|x a IH]; intros [|y b] [|z c]; simpl; try discriminate; auto.
  destruct (N.compare_spec x y) as [E1|E1|E1]; try discriminate;
    destruct (N.compare_spec y z) as [E2|E2|E2]; try discriminate; intros H1 H2.
  - subst. rewrite N.compare_refl. eapply IH; eassumption.
  - subst. rewrite (proj2 (N.compare_lt_iff _ _) E2). reflexivity.
  - subst. rewrite (proj2 (N.compare_lt_iff _ _) E1). reflexivity.
  - rewrite (proj2 (N.compare_lt_iff x z)) by lia. reflexivity.
Qed.

Lemma str_eqb_eq (a b : str) : str_eqb a b = true <-> a = b.
Proof.
  unfold str_eqb. rewrite <- str_compare_eq.
  destruct (str_compare a b); split; (discriminate || reflexivity).
Qed.

Lemma str_eqb_refl (a : str) : str_eqb a a = true.
Proof. apply str_eqb_eq. reflexivity. Qed.

(* ===================================================================== *)
(** ** Integers: 64-bit sums                                               *)
(* ===================================================================== *)


Lemma wrap64_congr (a b : Z) : a mod 2 ^ 64 = b mod 2 ^ 64 -> wrap64 a = wrap64 b.
Proof.
  intros H. unfold wrap64. f_equal.
  rewrite <- (Zplus_mod_idemp_l a), <- (Zplus_mod_idemp_l b), H. reflexivity.
Qed.

Lemma wrap64_mod (a : Z) : wrap64 a mod 2 ^ 64 = a mod 2 ^ 64.
Proof.
  unfold wrap64.
  rewrite Zminus_mod, Zmod_mod, <- Zminus_mod.
  f_equal. lia.
Qed.

Lemma wrap64_add_l (a b : Z) : wrap64 (wrap64 a + b) = wrap64 (a + b).
Proof.
  apply wrap64_congr.
  rewrite <- Zplus_mod_idemp_l, wrap64_mod, Zplus_mod_idemp_l. reflexivity.
Qed.

Lemma wrap64_add_r (a b : Z) : wrap64 (a + wrap64 b) = wrap64 (a + b).
Proof. rewrite (Z.add_comm a), wrap64_add_l, Z.add_comm. reflexivity. Qed.

Lemma wrap64_small (a : Z) : - 2 ^ 63 <= a < 2 ^ 63 -> wrap64 a = a.
Proof. intros H. unfold wrap64. rewrite Z.mod_small; lia. Qed.

(** A 64-bit sum of 64-bit partial sums is the 64-bit sum of the whole. *)
Lemma sum64_of_sums (parts : list (list Z)) :
  sum64 (map sum64 parts) = sum64 (List.concat parts).
Proof.
  unfold sum64. induction parts as [|p parts IH]; simpl; [reflexivity|].
  rewrite fold_right_app.
  rewrite <- wrap64_add_r, IH, wrap64_add_r, wrap64_add_l.
  f_equal.
  generalize (fold_right Z.add 0 (List.concat parts)). intros t.
  induction p as [|x p IHp]; simpl; lia.
Qed.

(** Above 2^53 the conversion to [float64] rounds (ties to even) ... *)
Example float_of_int64_rounds :
  float_of_int64 (2 ^ 53 + 1) = 9007199254740992%float /\
  float_of_int64 (2 ^ 53 + 3) = 9007199254740996%float /\
  float_of_int64 (- 2 ^ 63) = (-9223372036854775808)%float.
Proof. vm_compute. repeat split; reflexivity. Qed.

(** ... so the quotient of two NumPy integers may differ from the quotient of
    the same Python integers, which is rounded once. *)
Example truediv_python_numpy :
  py_truediv 9007199254740993 3 = 3002399751580331%float /\
  np_truediv 9007199254740993 3 = 3002399751580330.5%float /\
  py_truediv 2 100000 = np_truediv 2 100000.
Proof. vm_compute. repeat split; reflexivity. Qed.

(* ===================================================================== *)
(** ** Keys in increasing order                                            *)
(* ===================================================================== *)

Section SortedUnique.

Context {K : Type} (cmp : K -> K -> comparison).

Hypothesis cmp_eq : forall a b, cmp a b = Eq <-> a = b.
Hypothesis cmp_gt : forall a b, cmp a b = Gt -> cmp b a = Lt.
Hypothesis cmp_trans : forall a b c, cmp a b = Lt -> cmp b c = Lt -> cmp a c = Lt.

Lemma in_insert_key (k x : K) (ks : list K) :
  In x (insert_key cmp k ks) <-> x = k \/ In x ks.
Proof.
  induction ks as [|k' ks IH]; simpl.
  - intuition.
  - destruct (cmp k k') eqn:E; simpl.
    + apply cmp_eq in E. subst k'. intuition.
    + intuition.
    + rewrite IH. intuition.
Qed.

Lemma in_sorted_unique (x : K) (ks : list K) :
  In x (sorted_unique cmp ks) <-> In x ks.
Proof.
  induction ks as [|k ks IH]; simpl; [tauto|].
  rewrite in_insert_key, IH. intuition.
Qed.

Lemma insert_key_increasing (k : K) (ks : list K) :
  increasing cmp ks -> increasing cmp (insert_key cmp k ks).
Proof.
  unfold increasing. induction 1 as [|k' ks Hs IH Hall]; simpl.
  - repeat constructor.
  - destruct (cmp k k') eqn:E.
    + constructor; assumption.
    + constructor; [constructor; assumption|].
      constructor; [exact E|].
      rewrite Forall_forall in *. intros x Hx. eapply cmp_trans; eauto.
    + constructor; [exact IH|].
      rewrite Forall_forall in *. intros x Hx.
      apply in_insert_key in Hx. destruct Hx as [->|Hx]; auto.
Qed.

Lemma sorted_unique_increasing (ks : list K) : increasing cmp (sorted_unique cmp ks).
Proof.
  induction ks as [|k ks IH]; simpl.
  - constructor.
  - apply insert_key_increasing, IH.
Qed.

Lemma increasing_NoDup (ks : list K) : increasing cmp ks -> NoDup ks.
Proof.
  induction 1 as [|k ks Hs IH Hall]; constructor; [|exact IH].
  intros Hin. rewrite Forall_forall in Hall. specialize (Hall _ Hin).
  assert (E : cmp k k = Eq) by (apply cmp_eq; reflexivity).
  congruence.
Qed.

End SortedUnique.

Lemma years_NoDup (ys : list Z) : NoDup (sorted_unique Z.compare ys).
Proof.
  apply (increasing_NoDup Z.compare Z.compare_eq_iff).
  apply sorted_unique_increasing.
  - apply Z.compare_eq_iff.
  - intros a b H. apply Z.compare_gt_iff in H. apply Z.compare_lt_iff. exact H.
  - intros a b c H1 H2. rewrite Z.compare_lt_iff in *. lia.
Qed.

Lemma years_In (y : Z) (ys : list Z) : In y (sorted_unique Z.compare ys) <-> In y ys.
Proof. apply in_sorted_unique, Z.compare_eq_iff. Qed.

(* ===================================================================== *)
(** ** Grouping by year                                                    *)
(* ===================================================================== *)

Section Groups.

Variable f : record -> Z.

Lemma groups_total_concat (ks : list Z) (rows : list record) :
  fold_right Z.add 0 (List.concat (map (fun k => map f (filter (in_year k) rows)) ks))
  = groups_total f ks rows.
Proof.
  induction ks as [|k ks IH]; simpl; [reflexivity|].
  rewrite fold_right_app, <- IH.
  generalize (fold_right Z.add 0 (List.concat (map (fun k0 => map f (filter (in_year k0) rows)) ks))).
  intros t. induction (map f (filter (in_year k) rows)); simpl; lia.
Qed.

Lemma groups_total_skip (ks : list Z) (r : record) (rows : list record) :
  ~ In (Año r) ks -> groups_total f ks (r :: rows) = groups_total f ks rows.
Proof.
  induction ks as [|k ks IH]; simpl; [reflexivity|].
  intros H. unfold in_year at 1.
  destruct (Z.eqb_spec (Año r) k) as [E|E]; [exfalso; apply H; left; congruence|].
  rewrite IH by tauto. reflexivity.
Qed.

Lemma groups_total_cons (ks : list Z) (r : record) (rows : list record) :
  NoDup ks -> In (Año r) ks ->
  groups_total f ks (r :: rows) = f r + groups_total f ks rows.
Proof.
  induction 1 as [|k ks Hk Hnd IH]; simpl; [tauto|].
  intros Hin. unfold in_year at 1.
  destruct (Z.eqb_spec (Año r) k) as [E|E].
  - simpl. rewrite groups_total_skip by congruence. lia.
  - rewrite IH by (destruct Hin; congruence). lia.
Qed.

Lemma groups_total_all (ks : list Z) (rows : list record) :
  NoDup ks -> (forall r, In r rows -> In (Año r) ks) ->
  groups_total f ks rows = fold_right Z.add 0 (map f rows).
Proof.
  intros Hnd. induction rows as [|r rows IH]; intros Hin.
  - clear. simpl. induction ks as [|k ks IH]; simpl; lia.
  - rewrite groups_total_cons by (auto; apply Hin; left; reflexivity).
    simpl. rewrite IH; [reflexivity|]. intros r' Hr'. apply Hin. right. exact Hr'.
Qed.

End Groups.

(** The yearly 64-bit sums of a column add up to its 64-bit sum. *)
Lemma sum64_groupby_year (f : record -> Z) (rows : list record) :
  sum64 (map (fun y => sum64 (map f (filter (in_year y) rows)))
           (sorted_unique Z.compare (map Año rows)))
  = sum64 (map f rows).
Proof.
  rewrite <- (map_map (fun y => map f (filter (in_year y) rows)) sum64).
  rewrite sum64_of_sums. unfold sum64. f_equal.
  rewrite groups_total_concat. apply groups_total_all.
  - apply years_NoDup.
  - intros r Hr. apply years_In, in_map, Hr.
Qed.

Lemma filter_total_bounds (f : record -> Z) (p : record -> bool) (rows : list record) :
  (forall r, In r rows -> 0 <= f r) ->
  0 <= fold_right Z.add 0 (map f (filter p rows)) <= fold_right Z.add 0 (map f rows).
Proof.
  induction rows as [|r rows IH]; intros H; simpl; [lia|].
  assert (H0 : 0 <= f r) by (apply H; left; reflexivity).
  assert (IH' := IH (fun x Hx => H x (or_intror Hx))).
  destruct (p r); simpl; lia.
Qed.

(** Without overflow the yearly 64-bit sums are the plain sums, and add up to
    the plain total. *)
Lemma plain_groupby_year (f : record -> Z) (rows : list record) :
  (forall r, In r rows -> 0 <= f r) ->
  fold_right Z.add 0 (map f rows) < 2 ^ 63 ->
  fold_right Z.add 0
    (map (fun y => sum64 (map f (filter (in_year y) rows)))
       (sorted_unique Z.compare (map Año rows)))
  = fold_right Z.add 0 (map f rows).
Proof.
  intros Hpos Hlt.
  rewrite <- (groups_total_all f (sorted_unique Z.compare (map Año rows)) rows).
  - induction (sorted_unique Z.compare (map Año rows)) as [|k ks IH]; simpl; [reflexivity|].
    rewrite IH. f_equal. unfold sum64. apply wrap64_small.
    assert (B := filter_total_bounds f (in_year k) rows Hpos). lia.
  - apply years_NoDup.
  - intros r Hr. apply years_In, in_map, Hr.
Qed.


(* ===================================================================== *)
(** ** Running the callback on the heap                                    *)
(* ===================================================================== *)

(** The heap of a running program is written [h ++ ext]: [h] holds the objects
    that were there when the callback started, [ext] those it has made. *)

Lemma nth_error_local (h ext : heap) (i : nat) :
  nth_error (h ++ ext) (List.length h + i) = nth_error ext i.
Proof.
  rewrite nth_error_app2 by lia. f_equal. lia.
Qed.

Lemma nth_error_global (h ext : heap) (a : addr) (f : frame) :
  nth_error h a = Some f -> nth_error (h ++ ext) a = Some f.
Proof.
  intros H. rewrite nth_error_app1; [exact H|].
  apply nth_error_Some. congruence.
Qed.

Lemma update_nth_local (h ext : heap) (i : nat) (f : frame) :
  update_nth (List.length h + i) f (h ++ ext) = h ++ update_nth i f ext.
Proof.
  induction h as [|x h IH]; simpl; [reflexivity|].
  rewrite IH. reflexivity.
Qed.

Lemma bind_ok {A B : Type} (c : M A) (k : A -> M B) (h h' : heap) (a : A) :
  c h = (Ok a, h') -> bind c k h = k a h'.
Proof. intros H. unfold bind. rewrite H. reflexivity. Qed.

Lemma bind_raise {A B : Type} (c : M A) (k : A -> M B) (h h' : heap) (e : exn) :
  c h = (Raise e, h') -> bind c k h = (Raise e, h').
Proof. intros H. unfold bind. rewrite H. reflexivity. Qed.

Lemma read_rows_run (H : heap) (a : addr) (rows : list record) :
  nth_error H a = Some (DataFrame rows) -> read_rows a H = (Ok rows, H).
Proof. intros E. unfold read_rows, bind, read. rewrite E. reflexivity. Qed.

Lemma read_muni_run (H : heap) (a : addr) (rows : list muni_row) :
  nth_error H a = Some (MuniFrame rows) -> read_muni a H = (Ok rows, H).
Proof. intros E. unfold read_muni, bind, read. rewrite E. reflexivity. Qed.

Lemma read_temporal_run (H : heap) (a : addr) (rows : list temporal_row) :
  nth_error H a = Some (TemporalFrame rows) -> read_temporal a H = (Ok rows, H).
Proof. intros E. unfold read_temporal, bind, read. rewrite E. reflexivity. Qed.

Lemma alloc_run (h ext : heap) (f : frame) :
  alloc f (h ++ ext) = (Ok (List.length h + List.length ext)%nat, h ++ (ext ++ [f])).
Proof. unfold alloc. rewrite length_app, app_assoc. reflexivity. Qed.

Lemma select_region_run (h ext : heap) (a : addr) (region : string) (rows : list record) :
  nth_error (h ++ ext) a = Some (DataFrame rows) ->
  select_region a region (h ++ ext)
  = (Ok (List.length h + List.length ext)%nat,
     h ++ (ext ++ [DataFrame (filter (in_region region) rows)])).
Proof.
  intros E. unfold select_region.
  rewrite (bind_ok _ _ _ _ _ (read_rows_run _ _ _ E)). apply alloc_run.
Qed.

Lemma select_year_run (h ext : heap) (a : addr) (year : Z) (rows : list record) :
  nth_error (h ++ ext) a = Some (DataFrame rows) ->
  select_year a year (h ++ ext)
  = (Ok (List.length h + List.length ext)%nat,
     h ++ (ext ++ [DataFrame (filter_year rows year)])).
Proof.
  intros E. unfold select_year.
  rewrite (bind_ok _ _ _ _ _ (read_rows_run _ _ _ E)). apply alloc_run.
Qed.

Lemma copy_run (h ext : heap) (a : addr) (f : frame) :
  nth_error (h ++ ext) a = Some f ->
  copy a (h ++ ext) = (Ok (List.length h + List.length ext)%nat, h ++ (ext ++ [f])).
Proof.
  intros E. unfold copy.
  assert (R : read a (h ++ ext) = (Ok f, h ++ ext)) by (unfold read; rewrite E; reflexivity).
  rewrite (bind_ok _ _ _ _ _ R). apply alloc_run.
Qed.

Lemma select_isin_run (h ext : heap) (a : addr) (ids : list str) (rows : list muni_row) :
  nth_error (h ++ ext) a = Some (MuniFrame rows) ->
  select_isin a ids (h ++ ext)
  = (Ok (List.length h + List.length ext)%nat,
     h ++ (ext ++ [MuniFrame (filter (code_in ids) rows)])).
Proof.
  intros E. unfold select_isin.
  rewrite (bind_ok _ _ _ _ _ (read_muni_run _ _ _ E)). apply alloc_run.
Qed.

Lemma groupby_agg_year_run (h ext : heap) (a : addr) (rows : list record) :
  nth_error (h ++ ext) a = Some (DataFrame rows) ->
  groupby_agg_year a (h ++ ext)
  = (Ok (List.length h + List.length ext)%nat, h ++ (ext ++ [YearFrame (groupby_year rows)])).
Proof.
  intros E. unfold groupby_agg_year.
  rewrite (bind_ok _ _ _ _ _ (read_rows_run _ _ _ E)). apply alloc_run.
Qed.

(** The assignment of a column touches the frame it is made on, and no other. *)
Lemma set_tasa_100k_run (h ext : heap) (i : nat) (rows : list year_sum) :
  nth_error (h ++ ext) (List.length h + i) = Some (YearFrame rows) ->
  set_tasa_100k (List.length h + i)%nat (h ++ ext)
  = (Ok tt, h ++ update_nth i (TemporalFrame (map with_tasa rows)) ext).
Proof.
  intros E. unfold set_tasa_100k.
  assert (R : read (List.length h + i)%nat (h ++ ext) = (Ok (YearFrame rows), h ++ ext))
    by (unfold read; rewrite E; reflexivity).
  rewrite (bind_ok _ _ _ _ _ R). unfold write. rewrite update_nth_local. reflexivity.
Qed.

Lemma bind_lift_ok {A B : Type} (a : A) (k : A -> M B) (h : heap) :
  bind (lift (Ok a)) k h = k a h.
Proof. reflexivity. Qed.

Lemma bind_lift_raise {A B : Type} (e : exn) (k : A -> M B) (h : heap) :
  bind (lift (Raise e)) k h = (Raise e, h).
Proof. reflexivity. Qed.

Lemma bind_ret {A B : Type} (a : A) (k : A -> M B) (h : heap) :
  bind (ret a) k h = k a h.
Proof. reflexivity. Qed.

Ltac lookup :=
  first [ apply nth_error_global; eassumption
        | rewrite nth_error_local; reflexivity ].

Ltac run_with lem :=
  erewrite bind_ok; [ | apply lem; lookup ];
  cbv beta; cbn [app List.length update_nth].

Ltac run_lift :=
  match goal with
  | |- context [bind (lift ?r) _ _] =>
      let E := fresh "E" in
      destruct r eqn:E;
      [ rewrite bind_lift_ok | rewrite bind_lift_raise; eexists; reflexivity ]
  end.

(** The tail of the [try] block, from the reading of [map_data] on. *)
Ltac run_tail :=
  erewrite bind_ok; [ | apply read_muni_run; lookup ]; cbv beta;
  cbn [rbind]; run_lift;
  run_with groupby_agg_year_run; run_with set_tasa_100k_run;
  erewrite bind_ok; [ | apply read_temporal_run; lookup ]; cbv beta;
  cbn [rbind]; run_lift;
  erewrite bind_ok; [ | apply read_rows_run; lookup ]; cbv beta;
  cbn [rbind]; run_lift;
  erewrite bind_ok; [ | apply read_rows_run; lookup ]; cbv beta;
  cbn [rbind]; run_lift; cbn [rbind]; run_lift;
  cbn [rbind]; eexists; reflexivity.

Ltac run_isin :=
  erewrite bind_ok;
    [ | erewrite bind_ok; [ | apply select_isin_run; lookup ];
        cbv beta; cbn [app List.length]; apply copy_run; lookup ];
  cbv beta; cbn [app List.length].

Section Run.

Variable L : plotly.
Variable G : globals.

(** On the loaded heap the [try] block computes [refresh], and leaves every
    object that was there as it found it. *)
Lemma update_body_run (rows : list record) (aggs : list muni_row)
    (y : Z) (r : string) (h : heap) :
  loaded rows aggs h ->
  exists ext, update_body L G y r h = (refresh L G rows aggs y r, h ++ ext).
Proof.
  intros [Hdf Hagg]. unfold df in Hdf. unfold muni_agg in Hagg.
  enough (exists ext, update_body L G y r (h ++ []) = (refresh L G rows aggs y r, h ++ ext))
    as [ext Hext] by (rewrite app_nil_r in Hext; eauto).
  unfold update_body, refresh, filter_region, map_rows, temporal_data, df, muni_agg.
  destruct (String.eqb r "all") eqn:Er; destruct (nonempty (available_ids G)) eqn:Eids.
  - rewrite bind_ret. run_with select_year_run. run_with copy_run.
    run_isin. run_tail.
  - rewrite bind_ret. run_with select_year_run. run_with copy_run.
    rewrite bind_ret. run_tail.
  - run_with select_region_run. run_with select_year_run. run_with copy_run.
    run_isin. run_tail.
  - run_with select_region_run. run_with select_year_run. run_with copy_run.
    rewrite bind_ret. run_tail.
Qed.

Lemma startup_loaded (rows : list record) :
  loaded rows (build_muni_agg rows) (startup rows).
Proof. split; reflexivity. Qed.

(** An import that succeeds leaves the prepared table and its aggregate. *)
Lemma import_loaded (csv : list raw_row) (h : heap) :
  import_module csv = Ok h ->
  exists rows, load_csv csv = Ok rows /\ loaded rows (build_muni_agg rows) h.
Proof.
  unfold import_module. destruct (load_csv csv) as [rows|e]; cbn [rbind]; [|discriminate].
  intros [= <-]. exists rows. split; [reflexivity | apply startup_loaded].
Qed.

Lemma loaded_app (rows : list record) (aggs : list muni_row) (h ext : heap) :
  loaded rows aggs h -> loaded rows aggs (h ++ ext).
Proof.
  intros [H1 H2]. split; apply nth_error_global; assumption.
Qed.

(** The callback returns what [refresh] gives, rendered. *)
Lemma update_dashboard_run (rows : list record) (aggs : list muni_row)
    (y : Z) (r : string) (h : heap) :
  loaded rows aggs h ->
  exists ext,
    update_dashboard L G y r h = (rendered L (refresh L G rows aggs y r), h ++ ext).
Proof.
  intros Hl. destruct (update_body_run rows aggs y r h Hl) as [ext E].
  exists ext. unfold update_dashboard. rewrite E.
  destruct (refresh L G rows aggs y r); reflexivity.
Qed.

Lemma completes_refresh (rows : list record) (aggs : list muni_row)
    (y : Z) (r : string) (h : heap) :
  loaded rows aggs h -> completes L G y r h ->
  exists out, refresh L G rows aggs y r = Ok out.
Proof.
  intros Hl [out [h' E]]. destruct (update_body_run rows aggs y r h Hl) as [ext E'].
  exists out. congruence.
Qed.

(** A refresh that completes shows the map of the aggregate. *)
Lemma refresh_map (rows : list record) (aggs : list muni_row)
    (y : Z) (r : string) (out : outputs (Figure L)) :
  refresh L G rows aggs y r = Ok out ->
  map_figure L G (map_rows G aggs) = Ok (map_graph out).
Proof.
  unfold refresh.
  destruct (map_figure L G (map_rows G aggs)); cbn [rbind]; [|discriminate].
  destruct (time_figure L _); cbn [rbind]; [|discriminate].
  destruct (px_histogram L _); cbn [rbind]; [|discriminate].
  destruct (px_box L _); cbn [rbind]; [|discriminate].
  destruct (px_scatter L _); cbn [rbind]; [|discriminate].
  intros [= <-]. reflexivity.
Qed.

End Run.

(* ===================================================================== *)
(** ** The loader                                                          *)
(* ===================================================================== *)

(** A record of the prepared table comes from a line of the file. *)
Lemma load_csv_In (csv : list raw_row) (rows : list record) (r : record) :
  load_csv csv = Ok rows -> In r rows ->
  exists raw, In raw csv /\ load_row raw = Ok r.
Proof.
  revert rows. induction csv as [|raw csv IH]; intros rows; simpl.
  - intros [= <-] [].
  - destruct (load_row raw) as [x|e] eqn:Ex; cbn [rbind]; [|discriminate].
    destruct (load_csv csv) as [xs|e]; cbn [rbind]; [|discriminate].
    intros [= <-] [<-|Hr].
    + exists raw. split; [left; reflexivity | exact Ex].
    + destruct (IH xs eq_refl Hr) as [raw' [H1 H2]].
      exists raw'. split; [right; exact H1 | exact H2].
Qed.

(** Every line of a file that loads has its record in the table. *)
Lemma load_csv_In_raw (csv : list raw_row) (rows : list record) (raw : raw_row) :
  load_csv csv = Ok rows -> In raw csv ->
  exists r, load_row raw = Ok r /\ In r rows.
Proof.
  revert rows. induction csv as [|raw' csv IH]; intros rows; simpl.
  - intros _ [].
  - destruct (load_row raw') as [x|e] eqn:Ex; cbn [rbind]; [|discriminate].
    destruct (load_csv csv) as [xs|e]; cbn [rbind]; [|discriminate].
    intros [= <-] [<-|Hr].
    + exists x. split; [exact Ex | left; reflexivity].
    + destruct (IH xs eq_refl Hr) as [r [H1 H2]].
      exists r. split; [exact H1 | right; exact H2].
Qed.

(** The fields of a prepared record. *)
Lemma load_row_fields (raw : raw_row) (r : record) :
  load_row raw = Ok r ->
  coerce_count (csv_NumeroCasos raw) = Ok (NumeroCasos r) /\
  coerce_count (csv_NumeroPoblacionObjetivo raw) = Ok (NumeroPoblacionObjetivo r) /\
  Año r = csv_Año raw /\
  CodigoMunicipio r = normalize_code (csv_CodigoMunicipio raw) /\
  NombreMunicipio r = csv_NombreMunicipio raw /\
  NombreRegion r = fillna sin_region (csv_NombreRegion raw) /\
  tasa_100k r = record_tasa (NumeroCasos r) (NumeroPoblacionObjetivo r).
Proof.
  unfold load_row.
  destruct (coerce_count (csv_NumeroCasos raw)) as [casos|e]; cbn [rbind]; [|discriminate].
  destruct (coerce_count (csv_NumeroPoblacionObjetivo raw)) as [pob|e]; cbn [rbind]; [|discriminate].
  intros [= <-]. repeat split; reflexivity.
Qed.

(** C1 (amended). For every record of the loaded table the rate per 100 000
    is undefined exactly when the population is not positive (zero, or a
    negative number kept from the source); when the population is positive
    the rate is [NumeroCasos / NumeroPoblacionObjetivo * 100000], computed in
    binary64 as the program computes it. *)
Theorem tasa_100k_defined_iff_positive (csv : list raw_row) (rows : list record) (r : record) :
  load_csv csv = Ok rows ->
  In r rows ->
  (tasa_100k r = None <-> NumeroPoblacionObjetivo r <= 0) /\
  (0 < NumeroPoblacionObjetivo r ->
   tasa_100k r =
   Some (PrimFloat.mul
           (PrimFloat.div (float_of_int64 (NumeroCasos r))
              (float_of_int64 (NumeroPoblacionObjetivo r)))
           100000%float)).
Proof.
  intros Hload H. destruct (load_csv_In _ _ _ Hload H) as [raw [_ Hr]].
  destruct (load_row_fields _ _ Hr) as [_ [_ [_ [_ [_ [_ ->]]]]]]. unfold record_tasa.
  destruct (Z.ltb_spec 0 (NumeroPoblacionObjetivo r)) as [Hp|Hp].
  - split; [split; [discriminate | intros Hn; exfalso; lia] | reflexivity].
  - split; [split; [intros _; exact Hp | reflexivity] | intros Hn; exfalso; lia].
Qed.

(** The first row of the demonstration table: 2 cases among 100 000. *)
Lemma tasa_100k_defined_iff_positive_witness :
  (tasa_100k (Demo.record_of (Demo.row 2020 "5001" "Medellín" "Valle de Aburrá" 2 100000)) = None <->
   NumeroPoblacionObjetivo (Demo.record_of (Demo.row 2020 "5001" "Medellín" "Valle de Aburrá" 2 100000)) <= 0) /\
  (0 < NumeroPoblacionObjetivo (Demo.record_of (Demo.row 2020 "5001" "Medellín" "Valle de Aburrá" 2 100000)) ->
   tasa_100k (Demo.record_of (Demo.row 2020 "5001" "Medellín" "Valle de Aburrá" 2 100000)) =
   Some (PrimFloat.mul
           (PrimFloat.div
              (float_of_int64 (NumeroCasos (Demo.record_of (Demo.row 2020 "5001" "Medellín" "Valle de Aburrá" 2 100000))))
              (float_of_int64 (NumeroPoblacionObjetivo (Demo.record_of (Demo.row 2020 "5001" "Medellín" "Valle de Aburrá" 2 100000)))))
           100000%float)).
Proof.
  apply (tasa_100k_defined_iff_positive Demo.csv (Demo.table Demo.csv)).
  - vm_compute. reflexivity.
  - left. vm_compute. reflexivity.
Defined.

(** The rates of the demonstration table: 2.0, none (no population), 1.0, 25.0. *)
Example tasa_100k_demo :
  map tasa_100k (Demo.table Demo.csv) = [Some 2%float; None; Some 1%float; Some 25%float].
Proof. vm_compute. reflexivity. Qed.

(** C1, as stated, fails: a record whose source population is -5 has no rate,
    and its population is not 0. *)
Lemma tasa_100k_undefined_negative_population :
  ~ (forall (csv : list raw_row) (rows : list record) (r : record),
        load_csv csv = Ok rows ->
        In r rows ->
        (tasa_100k r = None <-> NumeroPoblacionObjetivo r = 0)).
Proof.
  intros H.
  destruct (H [Demo.row 2020 "5001" "Medellín" "Valle de Aburrá" 1 (-5)]
              [Demo.record_of (Demo.row 2020 "5001" "Medellín" "Valle de Aburrá" 1 (-5))]
              (Demo.record_of (Demo.row 2020 "5001" "Medellín" "Valle de Aburrá" 1 (-5))))
    as [H1 _].
  - vm_compute. reflexivity.
  - left. reflexivity.
  - specialize (H1 eq_refl). vm_compute in H1. discriminate.
Qed.

(** C2 (amended). The normalised code is undefined exactly when the raw field
    holds no digit. Otherwise it is the first maximal run of digits of the
    field with zeros added on the left: a numeric string of
    [max 5 (length run)] characters, so of 5 characters exactly when the run
    has at most 5 digits. The records without a code take no part in the
    aggregate the map is drawn from. *)
Theorem normalize_code_digits :
  (forall raw : str, normalize_code raw = None <-> no_digit raw = true) /\
  (forall raw code : str,
      normalize_code raw = Some code ->
      exists pre run post : str,
        raw = pre ++ run ++ post /\ no_digit pre = true /\
        run <> [] /\ all_digits run = true /\ digit_prefix post = [] /\
        code = zeros (5 - List.length run) ++ run /\
        all_digits code = true /\
        List.length code = Nat.max 5 (List.length run)) /\
  (forall rows : list record, build_muni_agg (filter has_codigo rows) = build_muni_agg rows).
Proof.
  split; [|split].
  - intros raw. unfold normalize_code.
    rewrite <- extract_digits_none. destruct (extract_digits raw); simpl; split; congruence.
  - intros raw code. unfold normalize_code.
    destruct (extract_digits raw) as [run|] eqn:E; cbn [option_map]; [|discriminate].
    intros [= <-].
    destruct (extract_digits_some _ _ E) as [pre [post [E1 [E2 [E3 [E4 E5]]]]]].
    exists pre, run, post. rewrite (zfill_digits 5 run E4).
    repeat split; auto.
    + rewrite all_digits_append, all_digits_zeros, E4. reflexivity.
    + rewrite length_app, length_zeros. lia.
  - intros rows. unfold build_muni_agg.
    assert (Ecodes : defined_codes (filter has_codigo rows) = defined_codes rows).
    { induction rows as [|r rows IH]; simpl; [reflexivity|].
      unfold has_codigo at 1. destruct (CodigoMunicipio r) eqn:Ec; simpl.
      - rewrite Ec, IH. reflexivity.
      - exact IH. }
    rewrite Ecodes. clear Ecodes. apply map_ext. intros c. unfold muni_agg_row.
    assert (Eg : filter (has_code c) (filter has_codigo rows) = filter (has_code c) rows).
    { induction rows as [|r rows IH]; cbn [filter]; [reflexivity|].
      destruct (has_codigo r) eqn:Ec; cbn [filter].
      - rewrite IH. reflexivity.
      - unfold has_codigo in Ec. unfold has_code at 2.
        destruct (CodigoMunicipio r); [discriminate | exact IH]. }
    rewrite Eg. reflexivity.
Qed.

(** A code written as a float, after a label: the run is "5001". *)
Lemma normalize_code_digits_witness :
  exists pre run post : str,
    lit "cod. 5001.0" = pre ++ run ++ post /\ no_digit pre = true /\
    run <> [] /\ all_digits run = true /\ digit_prefix post = [] /\
    lit "05001" = zeros (5 - List.length run) ++ run /\
    all_digits (lit "05001") = true /\
    List.length (lit "05001") = Nat.max 5 (List.length run).
Proof.
  apply (proj1 (proj2 normalize_code_digits) (lit "cod. 5001.0") (lit "05001")).
  reflexivity.
Defined.

(** Digits of any script count: a code written with the Arabic-Indic digits
    three and four is padded as it is, and so is such a run before "5001". *)
Example normalize_code_other_digits :
  normalize_code [1635; 1636]%N = Some (lit "000" ++ [1635; 1636]%N) /\
  normalize_code ([1635; 1636; 32]%N ++ lit "5001") = Some (lit "000" ++ [1635; 1636]%N).
Proof. split; reflexivity. Qed.

(** C2, as stated, fails: a run of six digits is kept whole. *)
Lemma normalize_code_long_run :
  ~ (forall raw code : str,
        normalize_code raw = Some code -> List.length code = 5%nat).
Proof.
  intros H. specialize (H (lit "123456") (lit "123456") eq_refl). discriminate.
Qed.


(** The coercion raises on an infinite number, and on nothing else. *)
Lemma coerce_count_raise (c : cell) (e : exn) :
  coerce_count c = Raise e <->
  exists f, c = Float f /\ PrimFloat.is_nan f = false /\ PrimFloat.is_finite f = false /\
            e = cast_error.
Proof.
  split.
  - destruct c as [|z|f|s]; try discriminate.
    unfold coerce_count. cbn [to_numeric fillna_zero].
    destruct (PrimFloat.is_nan f) eqn:En; [discriminate|].
    cbn [astype_int]. destruct (PrimFloat.is_finite f) eqn:Ef; [discriminate|].
    intros [= <-]. exists f. repeat split; assumption.
  - intros [f [-> [En [Ef ->]]]].
    unfold coerce_count. cbn [to_numeric fillna_zero]. rewrite En.
    cbn [astype_int]. rewrite Ef. reflexivity.
Qed.




(** An infinite count stops the import. *)
Example load_csv_infinite :
  load_csv [Demo.blank_row (Float infinity) (Integer 1000)] = Raise cast_error /\
  load_csv [Demo.blank_row (Float 2.5%float) Missing] =
  Ok [Demo.record_of (Demo.blank_row (Integer 2) (Integer 0))].
Proof. vm_compute. split; reflexivity. Qed.

(* ===================================================================== *)
(** ** The aggregator                                                      *)
(* ===================================================================== *)

(** C4. For every region filter and every table, the sum of the cases of
    the yearly series of the filtered set is the total of cases of the summary
    of that set: as 64-bit sums always, and as plain sums when the counts are
    not negative and their total is below 2^63. The series has one point for
    each year that has a record in the filtered set, and no other. *)
Theorem time_series_cases_total (rows : list record) (region : string) :
  sum64 (map t_NumeroCasos (temporal_data (filter_region rows region)))
  = total_casos (summary (filter_region rows region)) /\
  NoDup (map t_Año (temporal_data (filter_region rows region))) /\
  (forall y : Z,
      In y (map t_Año (temporal_data (filter_region rows region))) <->
      exists r, In r (filter_region rows region) /\ Año r = y) /\
  ((forall r, In r (filter_region rows region) -> 0 <= NumeroCasos r) ->
   fold_right Z.add 0 (map NumeroCasos (filter_region rows region)) < 2 ^ 63 ->
   fold_right Z.add 0 (map t_NumeroCasos (temporal_data (filter_region rows region)))
   = total_casos (summary (filter_region rows region))).
Proof.
  generalize (filter_region rows region). clear rows region. intros rows.
  unfold temporal_data, groupby_year. rewrite !map_map. cbn [with_tasa year_sum_of
    t_NumeroCasos t_Año ys_NumeroCasos ys_Año summary total_casos].
  split; [|split; [|split]].
  - apply sum64_groupby_year.
  - rewrite map_id. apply years_NoDup.
  - intros y. rewrite map_id, years_In, in_map_iff.
    split; intros [r [H1 H2]]; exists r; split; assumption.
  - intros Hpos Hlt. rewrite (plain_groupby_year NumeroCasos rows Hpos Hlt).
    unfold sum64. symmetry. apply wrap64_small.
    assert (B := filter_total_bounds NumeroCasos (fun _ => true) rows Hpos). lia.
Qed.

(** The demonstration table, region Oriente: 0 cases in 2020 and 1 in 2021. *)
Lemma time_series_cases_total_witness :
  sum64 (map t_NumeroCasos (temporal_data (filter_region (Demo.table Demo.csv) "Oriente")))
  = total_casos (summary (filter_region (Demo.table Demo.csv) "Oriente")) /\
  NoDup (map t_Año (temporal_data (filter_region (Demo.table Demo.csv) "Oriente"))) /\
  (forall y : Z,
      In y (map t_Año (temporal_data (filter_region (Demo.table Demo.csv) "Oriente"))) <->
      exists r, In r (filter_region (Demo.table Demo.csv) "Oriente") /\ Año r = y) /\
  fold_right Z.add 0
    (map t_NumeroCasos (temporal_data (filter_region (Demo.table Demo.csv) "Oriente")))
  = total_casos (summary (filter_region (Demo.table Demo.csv) "Oriente")).
Proof.
  destruct (time_series_cases_total (Demo.table Demo.csv) "Oriente") as [H1 [H2 [H3 H4]]].
  split; [exact H1 | split; [exact H2 | split; [exact H3|]]].
  apply H4.
  - intros r Hr. vm_compute in Hr.
    repeat (destruct Hr as [<-|Hr]; [vm_compute; discriminate|]). contradiction.
  - vm_compute. reflexivity.
Defined.

(** The yearly series of the demonstration table. *)
Example temporal_data_demo :
  map (fun t => (t_Año t, t_NumeroCasos t, t_NumeroPoblacionObjetivo t, t_tasa_100k t))
      (temporal_data (Demo.table Demo.csv))
  = [ (2020, 2, 100000, Some 2%float); (2021, 2, 104000, Some 0x1.ec4ec4ec4ec4fp+0%float) ].
Proof. vm_compute. reflexivity. Qed.

(** C5 (evaluation). On a table with one municipality and one case in each of
    two years, the callback counts two affected municipalities out of one: it
    counts the records with cases, not the municipalities that have some. *)
Theorem municipios_afectados_counts_records :
  municipios_afectados (summary (filter_region (Demo.table Demo.csv_one_municipality) "all")) = 2 /\
  total_mun (summary (filter_region (Demo.table Demo.csv_one_municipality) "all")) = 1 /\
  affected_municipalities (filter_region (Demo.table Demo.csv_one_municipality) "all") = 1 /\
  stats_summary
    (fst (update_dashboard Demo.lib Demo.shapes 2021 "all" (startup (Demo.table Demo.csv_one_municipality))))
  = SummaryDiv 2 (Some 1%float) 2 1 2021 "Todas".
Proof. vm_compute. repeat split; reflexivity. Qed.

(* ===================================================================== *)
(** ** The view refresh                                                    *)
(* ===================================================================== *)

(** The map of a refresh that completes is the figure of the aggregate. *)
Lemma completed_map (L : plotly) (G : globals) (rows : list record) (aggs : list muni_row)
    (h : heap) (y : Z) (r : string) :
  loaded rows aggs h -> completes L G y r h ->
  map_figure L G (map_rows G aggs) = Ok (map_graph (fst (update_dashboard L G y r h))).
Proof.
  intros Hl Hc.
  destruct (completes_refresh L G rows aggs y r h Hl Hc) as [out Eout].
  destruct (update_dashboard_run L G rows aggs y r h Hl) as [ext E].
  rewrite E, Eout. cbn [fst rendered].
  apply (refresh_map L G rows aggs y r out Eout).
Qed.

Lemma in_map_rows (G : globals) (aggs : list muni_row) (m : muni_row) :
  In m (map_rows G aggs) <->
  In m aggs /\ (available_ids G = [] \/ In (m_CodigoMunicipio m) (available_ids G)).
Proof.
  unfold map_rows. destruct (available_ids G) as [|i ids] eqn:E; cbn [nonempty].
  - intuition.
  - rewrite filter_In. unfold code_in. rewrite existsb_exists.
    split; intros [H1 H2]; (split; [exact H1|]).
    + right. destruct H2 as [x [Hx Ex]]. apply str_eqb_eq in Ex. subst x. exact Hx.
    + destruct H2 as [H2|H2]; [discriminate|].
      exists (m_CodigoMunicipio m). split; [exact H2 | apply str_eqb_refl].
Qed.

(** C3 (amended). With the region fixed, two refreshes that complete for the
    years [y1] and [y2] return the same map: the choropleth of the historical
    aggregate per municipality, built from all the years of the table. *)
Theorem map_same_for_every_year (L : plotly) (G : globals) (rows : list record) (h : heap)
    (r : string) (y1 y2 : Z) :
  loaded rows (build_muni_agg rows) h ->
  completes L G y1 r h -> completes L G y2 r h ->
  map_graph (fst (update_dashboard L G y1 r h)) = map_graph (fst (update_dashboard L G y2 r h)) /\
  map_figure L G (map_rows G (build_muni_agg rows))
  = Ok (map_graph (fst (update_dashboard L G y1 r h))).
Proof.
  intros Hl H1 H2.
  assert (E1 := completed_map L G rows _ h y1 r Hl H1).
  assert (E2 := completed_map L G rows _ h y2 r Hl H2).
  split; [congruence | exact E1].
Qed.

Lemma map_same_for_every_year_witness :
  map_graph (fst (update_dashboard Demo.lib Demo.shapes 2020 "all" (startup (Demo.table Demo.csv))))
  = map_graph (fst (update_dashboard Demo.lib Demo.shapes 2021 "all" (startup (Demo.table Demo.csv)))) /\
  map_figure Demo.lib Demo.shapes (map_rows Demo.shapes (build_muni_agg (Demo.table Demo.csv)))
  = Ok (map_graph (fst (update_dashboard Demo.lib Demo.shapes 2020 "all" (startup (Demo.table Demo.csv))))).
Proof.
  apply (map_same_for_every_year Demo.lib Demo.shapes (Demo.table Demo.csv) (startup (Demo.table Demo.csv))
           "all" 2020 2021).
  - split; reflexivity.
  - eexists. eexists. vm_compute. reflexivity.
  - eexists. eexists. vm_compute. reflexivity.
Defined.

(** C3, as stated, fails: in a table with a negative count in 2021 the
    refresh for 2020 returns the choropleth, and the one for 2021, where the
    scatter plot is refused, returns the error placeholder as its map. *)
Lemma map_differs_between_years :
  ~ (forall (L : plotly) (G : globals) (rows : list record) (h : heap)
            (r : string) (y1 y2 : Z),
        loaded rows (build_muni_agg rows) h ->
        map_graph (fst (update_dashboard L G y1 r h))
        = map_graph (fst (update_dashboard L G y2 r h))).
Proof.
  intros H.
  specialize (H Demo.lib Demo.shapes (Demo.table Demo.csv_negative)
                (startup (Demo.table Demo.csv_negative)) "all"%string 2020 2021
                (startup_loaded _)).
  vm_compute in H. discriminate.
Qed.

(** The two maps of that table. *)
Example maps_of_two_years_demo :
  map_graph (fst (update_dashboard Demo.lib Demo.shapes 2020 "all"
                    (startup (Demo.table Demo.csv_negative))))
  = Demo.Choropleth [lit "05001"] [0.5%float] (Some 10%float) [("Medellín"%string, 0.5%float)] /\
  map_graph (fst (update_dashboard Demo.lib Demo.shapes 2021 "all"
                    (startup (Demo.table Demo.csv_negative))))
  = Demo.Empty ("Error interno: " ++ Demo.size_error)%string.
Proof. vm_compute. split; reflexivity. Qed.

(** C10 (amended). With the year fixed, two refreshes that complete for the
    regions [r1] and [r2] return the same map: the choropleth of the rows of
    the historical aggregate, all of them when no boundary shape is known and
    otherwise those whose code is one of the shapes'. *)
Theorem map_same_for_every_region (L : plotly) (G : globals) (rows : list record) (h : heap)
    (y : Z) (r1 r2 : string) :
  loaded rows (build_muni_agg rows) h ->
  completes L G y r1 h -> completes L G y r2 h ->
  map_graph (fst (update_dashboard L G y r1 h)) = map_graph (fst (update_dashboard L G y r2 h)) /\
  map_figure L G (map_rows G (build_muni_agg rows))
  = Ok (map_graph (fst (update_dashboard L G y r1 h))) /\
  (forall m : muni_row,
      In m (map_rows G (build_muni_agg rows)) <->
      In m (build_muni_agg rows) /\
      (available_ids G = [] \/ In (m_CodigoMunicipio m) (available_ids G))).
Proof.
  intros Hl H1 H2.
  assert (E1 := completed_map L G rows _ h y r1 Hl H1).
  assert (E2 := completed_map L G rows _ h y r2 Hl H2).
  split; [congruence | split; [exact E1 | apply in_map_rows]].
Qed.

Lemma map_same_for_every_region_witness :
  map_graph (fst (update_dashboard Demo.lib Demo.shapes 2021 "all" (startup (Demo.table Demo.csv))))
  = map_graph (fst (update_dashboard Demo.lib Demo.shapes 2021 "Oriente" (startup (Demo.table Demo.csv)))) /\
  map_figure Demo.lib Demo.shapes (map_rows Demo.shapes (build_muni_agg (Demo.table Demo.csv)))
  = Ok (map_graph (fst (update_dashboard Demo.lib Demo.shapes 2021 "all" (startup (Demo.table Demo.csv))))) /\
  (forall m : muni_row,
      In m (map_rows Demo.shapes (build_muni_agg (Demo.table Demo.csv))) <->
      In m (build_muni_agg (Demo.table Demo.csv)) /\
      (available_ids Demo.shapes = [] \/ In (m_CodigoMunicipio m) (available_ids Demo.shapes))).
Proof.
  apply (map_same_for_every_region Demo.lib Demo.shapes (Demo.table Demo.csv) (startup (Demo.table Demo.csv))
           2021 "all" "Oriente").
  - split; reflexivity.
  - eexists. eexists. vm_compute. reflexivity.
  - eexists. eexists. vm_compute. reflexivity.
Defined.

(** C10, as stated, fails: with a negative count in the region Valle de
    Aburrá in 2021, the refresh for Oriente returns the choropleth and the
    one for Valle de Aburrá the error placeholder. *)
Lemma map_differs_between_regions :
  ~ (forall (L : plotly) (G : globals) (rows : list record) (h : heap)
            (y : Z) (r1 r2 : string),
        loaded rows (build_muni_agg rows) h ->
        map_graph (fst (update_dashboard L G y r1 h))
        = map_graph (fst (update_dashboard L G y r2 h))).
Proof.
  intros H.
  specialize (H Demo.lib Demo.shapes (Demo.table Demo.csv_negative_region)
                (startup (Demo.table Demo.csv_negative_region)) 2021
                "Oriente"%string "Valle de Aburrá"%string (startup_loaded _)).
  vm_compute in H. discriminate.
Qed.

(** The two maps of that table. *)
Example maps_of_two_regions_demo :
  map_graph (fst (update_dashboard Demo.lib Demo.shapes 2021 "Oriente"
                    (startup (Demo.table Demo.csv_negative_region))))
  = Demo.Choropleth [lit "05001"; lit "05002"] [(-1)%float; 25%float] (Some 10%float)
      [("Medellín"%string, (-1)%float); ("Abejorral"%string, 25%float)] /\
  map_graph (fst (update_dashboard Demo.lib Demo.shapes 2021 "Valle de Aburrá"
                    (startup (Demo.table Demo.csv_negative_region))))
  = Demo.Empty ("Error interno: " ++ Demo.size_error)%string.
Proof. vm_compute. split; reflexivity. Qed.

(** C6. On the loaded data, a second refresh with the same selection returns
    the outputs of the first, all six of them: they are a function of the
    year, the region and the loaded data ([refresh]), and the first refresh
    leaves every object it found as it was (the heap only grows). *)
Theorem refresh_twice_identical (L : plotly) (G : globals) (rows : list record)
    (aggs : list muni_row) (h : heap) (y : Z) (r : string) :
  loaded rows aggs h ->
  fst (update_dashboard L G y r (snd (update_dashboard L G y r h)))
  = fst (update_dashboard L G y r h) /\
  fst (update_dashboard L G y r h) = rendered L (refresh L G rows aggs y r) /\
  (exists ext, snd (update_dashboard L G y r h) = h ++ ext).
Proof.
  intros Hl.
  destruct (update_dashboard_run L G rows aggs y r h Hl) as [ext E].
  rewrite E. cbn [fst snd].
  destruct (update_dashboard_run L G rows aggs y r (h ++ ext) (loaded_app _ _ _ ext Hl))
    as [ext' E'].
  rewrite E'. cbn [fst]. split; [reflexivity | split; [reflexivity | exists ext; reflexivity]].
Qed.

Lemma refresh_twice_identical_witness :
  fst (update_dashboard Demo.lib Demo.shapes 2021 "Oriente"
         (snd (update_dashboard Demo.lib Demo.shapes 2021 "Oriente" (startup (Demo.table Demo.csv)))))
  = fst (update_dashboard Demo.lib Demo.shapes 2021 "Oriente" (startup (Demo.table Demo.csv))) /\
  fst (update_dashboard Demo.lib Demo.shapes 2021 "Oriente" (startup (Demo.table Demo.csv)))
  = rendered Demo.lib
      (refresh Demo.lib Demo.shapes (Demo.table Demo.csv) (build_muni_agg (Demo.table Demo.csv))
         2021 "Oriente") /\
  (exists ext,
      snd (update_dashboard Demo.lib Demo.shapes 2021 "Oriente" (startup (Demo.table Demo.csv)))
      = startup (Demo.table Demo.csv) ++ ext).
Proof.
  apply (refresh_twice_identical Demo.lib Demo.shapes (Demo.table Demo.csv)
           (build_muni_agg (Demo.table Demo.csv)) (startup (Demo.table Demo.csv)) 2021 "Oriente").
  split; reflexivity.
Defined.

(** C7. Whatever raises inside the [try] block, on any heap and with any
    plotting library, the callback returns: the five graphs get one and the
    same empty figure titled with the error, the summary gets the error text,
    and nothing the block had built is among the outputs. *)
Theorem failure_gives_placeholders (L : plotly) (G : globals) (y : Z) (r : string)
    (h h' : heap) (e : exn) :
  update_body L G y r h = (Raise e, h') ->
  update_dashboard L G y r h = (error_outputs L e, h') /\
  map_graph (error_outputs L e) = go_empty L ("Error interno: " ++ e)%string /\
  time_series_graph (error_outputs L e) = go_empty L ("Error interno: " ++ e)%string /\
  distribution_graph (error_outputs L e) = go_empty L ("Error interno: " ++ e)%string /\
  region_boxplot (error_outputs L e) = go_empty L ("Error interno: " ++ e)%string /\
  scatter_plot (error_outputs L e) = go_empty L ("Error interno: " ++ e)%string /\
  stats_summary (error_outputs L e) = ErrorDiv ("Error interno: " ++ e)%string.
Proof.
  intros H. unfold update_dashboard. rewrite H.
  repeat split; reflexivity.
Qed.

(** The scatter plot, the last figure to be built, rejects a negative size:
    the four figures built before it are dropped with it. *)
Lemma failure_gives_placeholders_witness :
  update_dashboard Demo.lib Demo.shapes 2021 "all" (startup (Demo.table Demo.csv_negative))
  = (error_outputs Demo.lib Demo.size_error,
     snd (update_body Demo.lib Demo.shapes 2021 "all" (startup (Demo.table Demo.csv_negative)))) /\
  map_graph (error_outputs Demo.lib Demo.size_error)
  = Demo.Empty ("Error interno: " ++ Demo.size_error)%string /\
  time_series_graph (error_outputs Demo.lib Demo.size_error)
  = Demo.Empty ("Error interno: " ++ Demo.size_error)%string /\
  distribution_graph (error_outputs Demo.lib Demo.size_error)
  = Demo.Empty ("Error interno: " ++ Demo.size_error)%string /\
  region_boxplot (error_outputs Demo.lib Demo.size_error)
  = Demo.Empty ("Error interno: " ++ Demo.size_error)%string /\
  scatter_plot (error_outputs Demo.lib Demo.size_error)
  = Demo.Empty ("Error interno: " ++ Demo.size_error)%string /\
  stats_summary (error_outputs Demo.lib Demo.size_error)
  = ErrorDiv ("Error interno: " ++ Demo.size_error)%string.
Proof.
  apply (failure_gives_placeholders Demo.lib Demo.shapes 2021 "all" (startup (Demo.table Demo.csv_negative))).
  vm_compute. reflexivity.
Defined.




(* ===================================================================== *)
(** ** Further properties of the aggregates                                *)
(* ===================================================================== *)

Lemma names_NoDup (cs : list string) : NoDup (sorted_unique String.compare cs).
Proof.
  apply (increasing_NoDup String.compare String_as_OT.cmp_eq).
  apply sorted_unique_increasing.
  - apply String_as_OT.cmp_eq.
  - intros a b H. rewrite String.compare_antisym, H. reflexivity.
  - intros a b c H1 H2.
    apply String_as_OT.cmp_lt. apply String_as_OT.cmp_lt in H1, H2.
    eapply String_as_OT.lt_trans; eassumption.
Qed.

Lemma names_In (c : string) (cs : list string) :
  In c (sorted_unique String.compare cs) <-> In c cs.
Proof. apply in_sorted_unique, String_as_OT.cmp_eq. Qed.

Lemma codes_NoDup (cs : list str) : NoDup (sorted_unique str_compare cs).
Proof.
  apply (increasing_NoDup str_compare str_compare_eq).
  apply sorted_unique_increasing.
  - apply str_compare_eq.
  - apply str_compare_gt.
  - apply str_compare_trans.
Qed.

Lemma codes_In (c : str) (cs : list str) :
  In c (sorted_unique str_compare cs) <-> In c cs.
Proof. apply in_sorted_unique, str_compare_eq. Qed.

Lemma in_defined_codes (c : str) (rows : list record) :
  In c (defined_codes rows) <-> exists r, In r rows /\ CodigoMunicipio r = Some c.
Proof.
  induction rows as [|r rows IH]; simpl.
  - split; [contradiction | intros [r [[] _]]].
  - destruct (CodigoMunicipio r) as [c'|] eqn:E; simpl; rewrite IH; split.
    + intros [->|[x [H1 H2]]]; [exists r; auto | exists x; auto].
    + intros [x [[<-|H1] H2]]; [left; congruence | right; exists x; auto].
    + intros [x [H1 H2]]. exists x; auto.
    + intros [x [[<-|H1] H2]]; [congruence | exists x; auto].
Qed.

Lemma defined_codes_column (rows : list record) :
  fold_right (fun o acc => match o with Some s => s :: acc | None => acc end) []
    (map CodigoMunicipio rows)
  = defined_codes rows.
Proof.
  induction rows as [|r rows IH]; simpl; [reflexivity|].
  rewrite IH. reflexivity.
Qed.

Lemma refresh_stats (L : plotly) (G : globals) (rows : list record) (aggs : list muni_row)
    (y : Z) (r : string) (out : outputs (Figure L)) :
  refresh L G rows aggs y r = Ok out ->
  stats_summary out = stats_html (summary (filter_region rows r)) y r.
Proof.
  unfold refresh.
  destruct (map_figure L G _); cbn [rbind]; [|discriminate].
  destruct (time_figure L _); cbn [rbind]; [|discriminate].
  destruct (px_histogram L _); cbn [rbind]; [|discriminate].
  destruct (px_box L _); cbn [rbind]; [|discriminate].
  destruct (px_scatter L _); cbn [rbind]; [|discriminate].
  intros [= <-]. reflexivity.
Qed.

(** X1. The summary of a refresh that completes is computed over the filtered
    set, whatever the selected year: the totals are the 64-bit sums of the
    cases and of the population of its records, the average rate is
    [total_casos / total_pob * 100000] and is undefined exactly when the total
    population is not positive, and the number of municipalities is the
    number of distinct codes of its records. *)
Theorem summary_over_filtered_set (L : plotly) (G : globals) (rows : list record)
    (aggs : list muni_row) (h : heap) (y : Z) (r : string) :
  loaded rows aggs h -> completes L G y r h ->
  stats_summary (fst (update_dashboard L G y r h))
  = stats_html (summary (filter_region rows r)) y r /\
  total_casos (summary (filter_region rows r))
  = sum64 (map NumeroCasos (filter_region rows r)) /\
  total_pob (summary (filter_region rows r))
  = sum64 (map NumeroPoblacionObjetivo (filter_region rows r)) /\
  (tasa_prom (summary (filter_region rows r)) = None <->
   total_pob (summary (filter_region rows r)) <= 0) /\
  (0 < total_pob (summary (filter_region rows r)) ->
   tasa_prom (summary (filter_region rows r))
   = Some (PrimFloat.mul
             (py_truediv (total_casos (summary (filter_region rows r)))
                (total_pob (summary (filter_region rows r))))
             100000%float)) /\
  (exists codes : list str,
      NoDup codes /\
      (forall c, In c codes <->
                 exists x, In x (filter_region rows r) /\ CodigoMunicipio x = Some c) /\
      total_mun (summary (filter_region rows r)) = Z.of_nat (List.length codes)).
Proof.
  intros Hl Hc.
  destruct (completes_refresh L G rows aggs y r h Hl Hc) as [out Eout].
  destruct (update_dashboard_run L G rows aggs y r h Hl) as [ext E].
  rewrite E, Eout. cbn [fst rendered].
  split; [apply (refresh_stats L G rows aggs y r out Eout)|].
  generalize (filter_region rows r). intros F.
  cbn [summary total_casos total_pob tasa_prom total_mun].
  split; [reflexivity | split; [reflexivity|]].
  destruct (Z.ltb_spec 0 (sum64 (map NumeroPoblacionObjetivo F))) as [Hp|Hp].
  - split; [split; [discriminate | intros Hn; exfalso; lia]|].
    split; [reflexivity|].
    exists (sorted_unique str_compare (defined_codes F)).
    split; [apply codes_NoDup|]. split.
    + intros c. rewrite codes_In. apply in_defined_codes.
    + unfold nunique. rewrite defined_codes_column. reflexivity.
  - split; [split; [intros _; exact Hp | reflexivity]|].
    split; [intros Hn; exfalso; lia|].
    exists (sorted_unique str_compare (defined_codes F)).
    split; [apply codes_NoDup|]. split.
    + intros c. rewrite codes_In. apply in_defined_codes.
    + unfold nunique. rewrite defined_codes_column. reflexivity.
Qed.

Lemma summary_over_filtered_set_witness :
  stats_summary (fst (update_dashboard Demo.lib Demo.shapes 2020 "Oriente" (startup (Demo.table Demo.csv))))
  = stats_html (summary (filter_region (Demo.table Demo.csv) "Oriente")) 2020 "Oriente" /\
  total_casos (summary (filter_region (Demo.table Demo.csv) "Oriente"))
  = sum64 (map NumeroCasos (filter_region (Demo.table Demo.csv) "Oriente")) /\
  total_pob (summary (filter_region (Demo.table Demo.csv) "Oriente"))
  = sum64 (map NumeroPoblacionObjetivo (filter_region (Demo.table Demo.csv) "Oriente")) /\
  (tasa_prom (summary (filter_region (Demo.table Demo.csv) "Oriente")) = None <->
   total_pob (summary (filter_region (Demo.table Demo.csv) "Oriente")) <= 0) /\
  (0 < total_pob (summary (filter_region (Demo.table Demo.csv) "Oriente")) ->
   tasa_prom (summary (filter_region (Demo.table Demo.csv) "Oriente"))
   = Some (PrimFloat.mul
             (py_truediv (total_casos (summary (filter_region (Demo.table Demo.csv) "Oriente")))
                (total_pob (summary (filter_region (Demo.table Demo.csv) "Oriente"))))
             100000%float)) /\
  (exists codes : list str,
      NoDup codes /\
      (forall c, In c codes <->
                 exists x, In x (filter_region (Demo.table Demo.csv) "Oriente") /\
                           CodigoMunicipio x = Some c) /\
      total_mun (summary (filter_region (Demo.table Demo.csv) "Oriente"))
      = Z.of_nat (List.length codes)).
Proof.
  apply (summary_over_filtered_set Demo.lib Demo.shapes (Demo.table Demo.csv)
           (build_muni_agg (Demo.table Demo.csv)) (startup (Demo.table Demo.csv)) 2020 "Oriente").
  - split; reflexivity.
  - eexists. eexists. vm_compute. reflexivity.
Defined.

(** The summary for the region Oriente does not change with the year: one
    case among 4000, one affected record, one municipality. *)
Example summary_demo :
  stats_summary (fst (update_dashboard Demo.lib Demo.shapes 2020 "Oriente" (startup (Demo.table Demo.csv))))
  = SummaryDiv 1 (Some 25%float) 1 1 2020 "Oriente".
Proof. vm_compute. reflexivity. Qed.

(** X2. The yearly series lists the years in increasing order; each point
    holds the 64-bit sums of the cases and of the population of the records
    of its year, and its rate is undefined exactly when that population sum
    is 0 and [casos / pob * 100000] otherwise. *)
Theorem temporal_data_by_year (rows : list record) :
  StronglySorted Z.lt (map t_Año (temporal_data rows)) /\
  Forall
    (fun t =>
       t_NumeroCasos t = sum64 (map NumeroCasos (filter_year rows (t_Año t))) /\
       t_NumeroPoblacionObjetivo t
       = sum64 (map NumeroPoblacionObjetivo (filter_year rows (t_Año t))) /\
       t_tasa_100k t
       = if t_NumeroPoblacionObjetivo t =? 0 then None
         else Some (PrimFloat.mul
                      (PrimFloat.div (float_of_int64 (t_NumeroCasos t))
                         (float_of_int64 (t_NumeroPoblacionObjetivo t)))
                      100000%float))
    (temporal_data rows).
Proof.
  unfold temporal_data, groupby_year. rewrite !map_map. cbn [with_tasa year_sum_of t_Año ys_Año].
  rewrite map_id. split.
  - assert (H : increasing Z.compare (sorted_unique Z.compare (map Año rows))).
    { apply sorted_unique_increasing.
      - apply Z.compare_eq_iff.
      - intros a b H. apply Z.compare_gt_iff in H. apply Z.compare_lt_iff. exact H.
      - intros a b c H1 H2. rewrite Z.compare_lt_iff in *. lia. }
    unfold increasing in H.
    induction H as [|k ks Hs IH Hall]; constructor; [exact IH | exact Hall].
  - apply Forall_forall. intros t Ht. apply in_map_iff in Ht. destruct Ht as [k [<- _]].
    cbn [t_NumeroCasos t_NumeroPoblacionObjetivo t_tasa_100k t_Año
         ys_NumeroCasos ys_NumeroPoblacionObjetivo ys_Año].
    repeat split.
Qed.

(** A normalised code is long enough: padding it again changes nothing. *)
Lemma normalize_code_fixed (raw c : str) :
  normalize_code raw = Some c -> zfill 5 c = c.
Proof.
  unfold normalize_code.
  destruct (extract_digits raw) as [run|] eqn:E; cbn [option_map]; [|discriminate].
  intros [= <-].
  destruct (extract_digits_some _ _ E) as [pre [post [_ [_ [_ [Hd _]]]]]].
  rewrite (zfill_digits 5 run Hd).
  assert (Hall : all_digits (zeros (5 - List.length run) ++ run) = true)
    by (rewrite all_digits_append, all_digits_zeros, Hd; reflexivity).
  rewrite (zfill_digits 5 _ Hall), length_app, length_zeros.
  replace (5 - (5 - List.length run + List.length run))%nat with 0%nat by lia.
  reflexivity.
Qed.

Lemma loaded_codes_fixed (csv : list raw_row) (rows : list record) (c : str) :
  load_csv csv = Ok rows -> In c (defined_codes rows) -> zfill 5 c = c.
Proof.
  intros Hload H. apply in_defined_codes in H. destruct H as [r [Hr Hc]].
  destruct (load_csv_In _ _ _ Hload Hr) as [raw [_ Hraw]].
  destruct (load_row_fields _ _ Hraw) as [_ [_ [_ [E _]]]].
  rewrite E in Hc. exact (normalize_code_fixed _ _ Hc).
Qed.

(** X3. The historical aggregate of a loaded table has one row for each
    municipality code of the table and no other; the row holds the 64-bit
    sums of the cases and of the population of all the records of that code,
    whatever their year, and its rate is undefined exactly when the
    population sum is 0 and [casos / pob * 100000] otherwise. *)
Theorem muni_agg_per_municipality (csv : list raw_row) (rows : list record) :
  load_csv csv = Ok rows ->
  NoDup (map m_CodigoMunicipio (build_muni_agg rows)) /\
  (forall c : str,
      In c (map m_CodigoMunicipio (build_muni_agg rows)) <->
      exists r, In r rows /\ CodigoMunicipio r = Some c) /\
  Forall
    (fun m =>
       m_NumeroCasos m
       = sum64 (map NumeroCasos (filter (has_code (m_CodigoMunicipio m)) rows)) /\
       m_NumeroPoblacionObjetivo m
       = sum64 (map NumeroPoblacionObjetivo
                  (filter (has_code (m_CodigoMunicipio m)) rows)) /\
       m_tasa_100k m
       = if m_NumeroPoblacionObjetivo m =? 0 then None
         else Some (PrimFloat.mul
                      (PrimFloat.div (float_of_int64 (m_NumeroCasos m))
                         (float_of_int64 (m_NumeroPoblacionObjetivo m)))
                      100000%float))
    (build_muni_agg rows).
Proof.
  intros Hload.
  assert (Hcodes : map m_CodigoMunicipio (build_muni_agg rows)
                   = sorted_unique str_compare (defined_codes rows)).
  { unfold build_muni_agg. rewrite map_map. cbn [muni_agg_row m_CodigoMunicipio].
    transitivity (map (fun c : str => c)
                    (sorted_unique str_compare (defined_codes rows)));
      [|apply map_id].
    apply map_ext_in. intros c Hc. apply (proj1 (codes_In _ _)) in Hc.
    exact (loaded_codes_fixed csv rows c Hload Hc). }
  split; [|split].
  - rewrite Hcodes. apply codes_NoDup.
  - intros c. rewrite Hcodes, codes_In. apply in_defined_codes.
  - apply Forall_forall. intros m Hm. unfold build_muni_agg in Hm.
    apply in_map_iff in Hm. destruct Hm as [c [<- Hc]]. apply (proj1 (codes_In _ _)) in Hc.
    cbn [muni_agg_row m_CodigoMunicipio m_NumeroCasos m_NumeroPoblacionObjetivo m_tasa_100k].
    rewrite (loaded_codes_fixed csv rows c Hload Hc). repeat split.
Qed.

Lemma muni_agg_per_municipality_witness :
  NoDup (map m_CodigoMunicipio (build_muni_agg (Demo.table Demo.csv))) /\
  (forall c : str,
      In c (map m_CodigoMunicipio (build_muni_agg (Demo.table Demo.csv))) <->
      exists r, In r (Demo.table Demo.csv) /\ CodigoMunicipio r = Some c) /\
  Forall
    (fun m =>
       m_NumeroCasos m
       = sum64 (map NumeroCasos (filter (has_code (m_CodigoMunicipio m)) (Demo.table Demo.csv))) /\
       m_NumeroPoblacionObjetivo m
       = sum64 (map NumeroPoblacionObjetivo
                  (filter (has_code (m_CodigoMunicipio m)) (Demo.table Demo.csv))) /\
       m_tasa_100k m
       = if m_NumeroPoblacionObjetivo m =? 0 then None
         else Some (PrimFloat.mul
                      (PrimFloat.div (float_of_int64 (m_NumeroCasos m))
                         (float_of_int64 (m_NumeroPoblacionObjetivo m)))
                      100000%float))
    (build_muni_agg (Demo.table Demo.csv)).
Proof.
  apply (muni_agg_per_municipality Demo.csv (Demo.table Demo.csv)).
  vm_compute. reflexivity.
Defined.

(** The aggregate of the demonstration table: both years of each municipality. *)
Example muni_agg_demo :
  map (fun m => (m_CodigoMunicipio m, m_NumeroCasos m, m_NumeroPoblacionObjetivo m, m_tasa_100k m))
      (build_muni_agg (Demo.table Demo.csv))
  = [ (lit "05001", 3, 200000, Some 1.5%float); (lit "05002", 1, 4000, Some 25%float) ].
Proof. vm_compute. reflexivity. Qed.

(* ===================================================================== *)
(** ** More on the loader                                                  *)
(* ===================================================================== *)

Lemma digit_prefix_run (run post : str) :
  all_digits run = true -> digit_prefix post = [] ->
  digit_prefix (run ++ post) = run.
Proof.
  intros Hd Hp. induction run as [|c run IH]; simpl.
  - exact Hp.
  - simpl in Hd. apply andb_true_iff in Hd. destruct Hd as [Hc Hd].
    rewrite Hc, (IH Hd). reflexivity.
Qed.

Lemma extract_digits_skip (pre s : str) :
  no_digit pre = true -> extract_digits (pre ++ s) = extract_digits s.
Proof.
  induction pre as [|c pre IH]; simpl; [reflexivity|].
  intros H. apply andb_true_iff in H. destruct H as [Hc Hp].
  apply negb_true_iff in Hc. rewrite Hc. exact (IH Hp).
Qed.

Lemma extract_digits_run (run post : str) :
  all_digits run = true -> run <> [] -> digit_prefix post = [] ->
  extract_digits (run ++ post) = Some run.
Proof.
  intros Hd Hne Hp. destruct run as [|c run]; [contradiction|].
  simpl in *. apply andb_true_iff in Hd. destruct Hd as [Hc Hd].
  rewrite Hc, (digit_prefix_run run post Hd Hp). reflexivity.
Qed.

(** X4. Whatever surrounds it, the first run of digits of the field is what
    the normalisation keeps: a field made of text without digits, then a run
    of digits (of any script), then text that does not start with a digit,
    gives that run with zeros added on the left up to five characters. *)
Theorem normalize_code_of_run (pre run post : str) :
  no_digit pre = true ->
  all_digits run = true ->
  run <> [] ->
  digit_prefix post = [] ->
  normalize_code (pre ++ run ++ post) = Some (zeros (5 - List.length run) ++ run).
Proof.
  intros Hpre Hd Hne Hp. unfold normalize_code.
  rewrite (extract_digits_skip pre _ Hpre), (extract_digits_run run post Hd Hne Hp).
  cbn [option_map]. rewrite (zfill_digits 5 run Hd). reflexivity.
Qed.

(** A code that pandas read as a float, after a label. *)
Lemma normalize_code_of_run_witness :
  normalize_code (lit "cod. " ++ lit "5001" ++ lit ".0")
  = Some (zeros (5 - List.length (lit "5001")) ++ lit "5001").
Proof.
  apply (normalize_code_of_run (lit "cod. ") (lit "5001") (lit ".0"));
    [reflexivity | reflexivity | discriminate | reflexivity].
Defined.

(** X5. A normalised code is a fixed point: normalising it again, or padding
    it again as the aggregate does, gives the same code. *)
Theorem normalize_code_idempotent (raw c : str) :
  normalize_code raw = Some c ->
  normalize_code c = Some c /\ zfill 5 c = c.
Proof.
  intros H. split; [|exact (normalize_code_fixed raw c H)].
  assert (Hfix := normalize_code_fixed raw c H).
  unfold normalize_code in H.
  destruct (extract_digits raw) as [run|] eqn:E; cbn [option_map] in H; [|discriminate].
  injection H as <-.
  destruct (extract_digits_some _ _ E) as [pre [post [_ [_ [Hne [Hd _]]]]]].
  rewrite (zfill_digits 5 run Hd) in *.
  assert (Hall : all_digits (zeros (5 - List.length run) ++ run) = true)
    by (rewrite all_digits_append, all_digits_zeros, Hd; reflexivity).
  assert (Hnonempty : zeros (5 - List.length run) ++ run <> []).
  { destruct run as [|a run]; [contradiction|].
    intros H. apply app_eq_nil in H. destruct H as [_ H]. discriminate. }
  unfold normalize_code.
  rewrite <- (app_nil_r (zeros (5 - List.length run) ++ run)) at 1.
  rewrite (extract_digits_run _ [] Hall Hnonempty eq_refl).
  cbn [option_map]. rewrite Hfix. reflexivity.
Qed.

Lemma normalize_code_idempotent_witness :
  normalize_code (lit "05001") = Some (lit "05001") /\ zfill 5 (lit "05001") = lit "05001".
Proof.
  apply (normalize_code_idempotent (lit "cod. 5001.0") (lit "05001")). reflexivity.
Defined.

(** A finite float is neither NaN nor infinite. *)
Lemma finite_float (f : float) (s : bool) (m : positive) (e : Z) :
  Prim2SF f = S754_finite s m e ->
  PrimFloat.is_nan f = false /\ PrimFloat.is_finite f = true.
Proof.
  intros E.
  assert (En : PrimFloat.is_nan f = false).
  { unfold PrimFloat.is_nan. rewrite FloatAxioms.eqb_spec, E.
    unfold SFeqb, SFcompare. rewrite Z.compare_refl, Pos.compare_cont_refl.
    destruct s; reflexivity. }
  split; [exact En|].
  unfold PrimFloat.is_finite. rewrite En. cbn [orb].
  unfold PrimFloat.is_infinity. rewrite FloatAxioms.eqb_spec, FloatAxioms.abs_spec, E.
  reflexivity.
Qed.

(** X6. The coercion cuts the fraction of a finite number toward zero: for
    a float of sign [s] and magnitude [m * 2^e] below 2^63, the loaded count
    has the sign [s] and the magnitude [a] with [a <= m * 2^e < a + 1]
    (written without fractions: both sides are multiplied by [2^-e] when
    [e] is negative). *)
Theorem coerce_count_truncates (f : float) (s : bool) (m : positive) (e : Z) :
  Prim2SF f = S754_finite s m e ->
  Z.pos m * 2 ^ Z.max 0 e < 2 ^ 63 * 2 ^ Z.max 0 (- e) ->
  exists a : Z,
    coerce_count (Float f) = Ok (if s then - a else a) /\
    0 <= a /\
    a * 2 ^ Z.max 0 (- e) <= Z.pos m * 2 ^ Z.max 0 e < (a + 1) * 2 ^ Z.max 0 (- e).
Proof.
  intros E Hlt. destruct (finite_float f s m e E) as [En Ef].
  unfold coerce_count. cbn [to_numeric fillna_zero]. rewrite En.
  cbn [astype_int]. rewrite Ef, E. cbn [trunc_float].
  set (a := match e with
            | 0 => Z.pos m
            | Z.pos k => Z.pos m * 2 ^ Z.pos k
            | Z.neg k => Z.pos m / 2 ^ Z.pos k
            end).
  assert (Ha : 0 <= a < 2 ^ 63 /\
               a * 2 ^ Z.max 0 (- e) <= Z.pos m * 2 ^ Z.max 0 e < (a + 1) * 2 ^ Z.max 0 (- e)).
  { subst a. destruct e as [|k|k].
    - cbn [Z.max Z.opp Z.compare] in *. rewrite Z.pow_0_r in *. lia.
    - replace (Z.max 0 (Z.pos k)) with (Z.pos k) in * by lia.
      replace (Z.max 0 (- Z.pos k)) with 0 in * by lia.
      rewrite Z.pow_0_r in *.
      assert (0 < 2 ^ Z.pos k) by (apply Z.pow_pos_nonneg; lia). nia.
    - replace (Z.max 0 (Z.neg k)) with 0 in * by lia.
      replace (Z.max 0 (- Z.neg k)) with (Z.pos k) in * by lia.
      rewrite Z.pow_0_r in *.
      assert (Hp : 0 < 2 ^ Z.pos k) by (apply Z.pow_pos_nonneg; lia).
      assert (Hd := Z.div_mod (Z.pos m) (2 ^ Z.pos k) ltac:(lia)).
      assert (Hm := Z.mod_pos_bound (Z.pos m) (2 ^ Z.pos k) Hp).
      assert (H0 : 0 <= Z.pos m / 2 ^ Z.pos k) by (apply Z.div_pos; lia).
      split; [split; [exact H0 | nia] | nia]. }
  destruct Ha as [[Ha0 Ha1] Hb].
  exists a. split; [|split; [exact Ha0 | exact Hb]].
  assert (Hin : in_int64 (if s then - a else a) = true).
  { unfold in_int64. apply andb_true_iff.
    split; [apply Z.leb_le | apply Z.ltb_lt]; destruct s; lia. }
  rewrite Hin. reflexivity.
Qed.

(** -2.75 is the float of sign -, mantissa 11 * 2^49 and exponent -51; it
    is loaded as -2. *)
Lemma coerce_count_truncates_witness :
  exists a : Z,
    coerce_count (Float (-2.75)%float) = Ok (- a) /\
    0 <= a /\
    a * 2 ^ Z.max 0 (- (-51)) <= Z.pos 6192449487634432 * 2 ^ Z.max 0 (-51)
    < (a + 1) * 2 ^ Z.max 0 (- (-51)).
Proof.
  apply (coerce_count_truncates (-2.75)%float true 6192449487634432 (-51)).
  - vm_compute. reflexivity.
  - vm_compute. reflexivity.
Defined.

(** Some counts as they are loaded: the fraction is cut, NaN is 0, an
    infinite number raises. *)
Example coerce_count_demo :
  coerce_count (Float 2.75%float) = Ok 2 /\
  coerce_count (Float (-2.75)%float) = Ok (-2) /\
  coerce_count (Float nan) = Ok 0 /\
  coerce_count (Float 0x1p+53%float) = Ok (2 ^ 53) /\
  coerce_count (Float neg_infinity) = Raise cast_error.
Proof. vm_compute. repeat split; reflexivity. Qed.

(* ===================================================================== *)
(** ** The boundary shapes                                                 *)
(* ===================================================================== *)

Lemma zfill_length (w : nat) (s : str) :
  List.length (zfill w s) = Nat.max w (List.length s).
Proof.
  unfold zfill. destruct s as [|c rest].
  - rewrite length_zeros. cbn [List.length]. lia.
  - destruct (is_sign c); cbn [List.length]; rewrite length_app, length_zeros;
      cbn [List.length]; lia.
Qed.

Lemma zfill_long (w : nat) (s : str) :
  (w <= List.length s)%nat -> zfill w s = s.
Proof.
  intros H. unfold zfill.
  replace (w - List.length s)%nat with 0%nat by lia.
  destruct s as [|c rest]; [reflexivity|].
  destruct (is_sign c); reflexivity.
Qed.

Lemma zfill_idempotent (w : nat) (s : str) : zfill w (zfill w s) = zfill w s.
Proof. apply zfill_long. rewrite zfill_length. lia. Qed.

Lemma truthy_some (o : option str) :
  truthy o = true <-> exists s, o = Some s /\ s <> [].
Proof.
  destruct o as [[|c t]|]; simpl.
  - split; [discriminate|]. intros [s [E H]]. injection E as <-. contradiction.
  - split; [|reflexivity]. intros _. eexists. split; [reflexivity | discriminate].
  - split; [discriminate|]. intros [s [E _]]. discriminate.
Qed.

Lemma truthy_zfill (w : nat) (s : str) :
  s <> [] -> truthy (Some (zfill w s)) = true.
Proof.
  intros H. destruct (zfill w s) as [|c t] eqn:E; [|reflexivity].
  exfalso. assert (L := zfill_length w s). rewrite E in L.
  destruct s; [contradiction | simpl in L; lia].
Qed.

(** The identifier a feature contributes to [available_ids], if any. *)
Lemma shape_id_of_feature (f : feature) (i : str) :
  (truthy (feat_id (assign_id f)) = true /\
   i = zfill 5 (fillna [] (feat_id (assign_id f)))) <->
  option_map (zfill 5) (feature_key f) = Some i.
Proof.
  unfold assign_id, feature_key. fold (feature_code f).
  destruct (truthy (feat_id f)) eqn:Eid.
  - rewrite Eid. apply truthy_some in Eid. destruct Eid as [s [Es Hs]].
    rewrite Es. cbn [option_map fillna]. split.
    + intros [_ ->]. reflexivity.
    + intros [= <-]. split; reflexivity.
  - destruct (truthy (feature_code f)) eqn:Ec.
    + apply truthy_some in Ec. destruct Ec as [s [Es Hs]].
      rewrite Es. cbn [feat_id option_map fillna].
      rewrite (truthy_zfill 5 s Hs), zfill_idempotent. split.
      * intros [_ ->]. reflexivity.
      * intros [= <-]. split; reflexivity.
    + rewrite Eid. cbn [option_map]. split; [intros [H _]; discriminate | discriminate].
Qed.

Lemma in_shape_ids (feats : list feature) (i : str) :
  In i (shape_ids (map assign_id feats)) <->
  exists f, In f feats /\ option_map (zfill 5) (feature_key f) = Some i.
Proof.
  unfold shape_ids. rewrite in_flat_map. split.
  - intros [g [Hg Hi]]. apply in_map_iff in Hg. destruct Hg as [f [<- Hf]].
    exists f. split; [exact Hf|]. apply shape_id_of_feature.
    destruct (truthy (feat_id (assign_id f))); [|contradiction].
    destruct Hi as [<-|[]]. split; reflexivity.
  - intros [f [Hf Hk]]. exists (assign_id f). split; [apply in_map, Hf|].
    apply shape_id_of_feature in Hk. destruct Hk as [Ht ->].
    rewrite Ht. left. reflexivity.
Qed.

(** X7. The identifiers the map is restricted to are, padded to five
    characters, the identifier of each feature that has one and otherwise the
    code of its properties ([CodigoMunicipio] before [codigo]); a feature with
    neither gives none. Each has at least five characters. Without the file
    there is no shape and no identifier. *)
Theorem shape_ids_of_features (feats : list feature) (vmax : option float) :
  (forall i : str,
      In i (available_ids (module_globals (Some feats) vmax)) <->
      exists f, In f feats /\ option_map (zfill 5) (feature_key f) = Some i) /\
  (forall i : str,
      In i (available_ids (module_globals (Some feats) vmax)) -> (5 <= List.length i)%nat) /\
  available_ids (module_globals None vmax) = [] /\
  geojson_data (module_globals None vmax) = [].
Proof.
  split; [|split; [|split; reflexivity]].
  - intros i. cbn [module_globals available_ids load_geojson snd]. apply in_shape_ids.
  - intros i Hi. cbn [module_globals available_ids load_geojson snd] in Hi.
    apply in_shape_ids in Hi. destruct Hi as [f [_ Hk]].
    destruct (feature_key f) as [s|]; cbn [option_map] in Hk; [|discriminate].
    injection Hk as <-. rewrite zfill_length. lia.
Qed.

Lemma shape_ids_of_features_witness :
  In (lit "05002") (available_ids (module_globals (Some Sample.features) None)) /\
  (5 <= List.length (lit "05002"))%nat.
Proof.
  assert (H : In (lit "05002") (available_ids (module_globals (Some Sample.features) None))).
  { apply (proj1 (shape_ids_of_features Sample.features None)).
    eexists. split; [right; left; reflexivity | reflexivity]. }
  split; [exact H|].
  exact (proj1 (proj2 (shape_ids_of_features Sample.features None)) _ H).
Defined.

(** The padding counts characters, not bytes: the two characters of "ñ1"
    get three zeros. *)
Example zfill_counts_characters :
  zfill 5 [241; 49]%N = [48; 48; 48; 241; 49]%N /\
  zfill 5 (lit "-12") = lit "-0012" /\
  zfill 5 (lit "123456") = lit "123456".
Proof. repeat split; reflexivity. Qed.

(** X8. A feature that comes with an identifier keeps it as it is in the
    shapes handed to the map, while the set of available identifiers holds it
    padded: for an identifier shorter than five characters the two differ. *)
Theorem own_identifier_not_padded (feats : list feature) (vmax : option float)
    (f : feature) (s : str) :
  In f feats -> feat_id f = Some s -> s <> [] ->
  In f (geojson_data (module_globals (Some feats) vmax)) /\
  In (zfill 5 s) (available_ids (module_globals (Some feats) vmax)) /\
  ((List.length s < 5)%nat -> zfill 5 s <> s).
Proof.
  intros Hf Hid Hs.
  assert (Ht : truthy (feat_id f) = true) by (apply truthy_some; eauto).
  assert (Ha : assign_id f = f) by (unfold assign_id; rewrite Ht; reflexivity).
  split; [|split].
  - cbn [module_globals geojson_data load_geojson fst]. rewrite <- Ha. apply in_map, Hf.
  - cbn [module_globals available_ids load_geojson snd]. apply in_shape_ids.
    exists f. split; [exact Hf|]. unfold feature_key. rewrite Ht, Hid. reflexivity.
  - intros Hlt E. assert (L := zfill_length 5 s). rewrite E in L. lia.
Qed.

Lemma own_identifier_not_padded_witness :
  In Sample.short_id
    (geojson_data (module_globals (Some (Sample.short_id :: Sample.features)) None)) /\
  In (zfill 5 (lit "5004"))
    (available_ids (module_globals (Some (Sample.short_id :: Sample.features)) None)) /\
  ((List.length (lit "5004") < 5)%nat -> zfill 5 (lit "5004") <> lit "5004").
Proof.
  apply (own_identifier_not_padded (Sample.short_id :: Sample.features) None Sample.short_id
           (lit "5004")).
  - left. reflexivity.
  - reflexivity.
  - discriminate.
Defined.

Lemma in_build_muni_agg (rows : list record) (c : str) :
  In c (defined_codes rows) -> In (muni_agg_row rows c) (build_muni_agg rows).
Proof.
  intros H. unfold build_muni_agg. apply in_map.
  apply codes_In. exact H.
Qed.

(** X9. When there are shapes, a municipality of the table is among the rows
    the map is drawn from exactly when some feature is identified by its
    code: the code of the table and the key of the feature meet once both are
    padded to five characters. *)
Theorem municipality_drawn_iff_shape (csv : list raw_row) (rows : list record)
    (feats : list feature) (vmax : option float) (raw : raw_row) (c : str) :
  load_csv csv = Ok rows ->
  In raw csv ->
  normalize_code (csv_CodigoMunicipio raw) = Some c ->
  available_ids (module_globals (Some feats) vmax) <> [] ->
  ((exists m, In m (map_rows (module_globals (Some feats) vmax) (build_muni_agg rows)) /\
              m_CodigoMunicipio m = c) <->
   (exists f, In f feats /\ option_map (zfill 5) (feature_key f) = Some c)).
Proof.
  intros Hload Hraw Hc Hne.
  assert (Hdef : In c (defined_codes rows)).
  { apply in_defined_codes.
    destruct (load_csv_In_raw _ _ _ Hload Hraw) as [r [Hr Hin]].
    exists r. split; [exact Hin|].
    destruct (load_row_fields _ _ Hr) as [_ [_ [_ [E _]]]]. rewrite E. exact Hc. }
  assert (Hfix := normalize_code_fixed _ _ Hc).
  rewrite <- (in_shape_ids feats c).
  change (shape_ids (map assign_id feats)) with (available_ids (module_globals (Some feats) vmax)).
  split.
  - intros [m [Hm <-]]. apply in_map_rows in Hm. destruct Hm as [_ [E|Hin]]; [contradiction | exact Hin].
  - intros Hin. exists (muni_agg_row rows c). split.
    + apply in_map_rows. split; [apply in_build_muni_agg, Hdef|].
      right. cbn [muni_agg_row m_CodigoMunicipio]. rewrite Hfix. exact Hin.
    + cbn [muni_agg_row m_CodigoMunicipio]. exact Hfix.
Qed.

Lemma municipality_drawn_iff_shape_witness :
  (exists m, In m (map_rows (module_globals (Some Sample.features) None)
                     (build_muni_agg (Demo.table Demo.csv))) /\
             m_CodigoMunicipio m = lit "05002") <->
  (exists f, In f Sample.features /\ option_map (zfill 5) (feature_key f) = Some (lit "05002")).
Proof.
  apply (municipality_drawn_iff_shape Demo.csv (Demo.table Demo.csv) Sample.features None
           (Demo.row 2020 "5002" "Abejorral" "Oriente" 0 0) (lit "05002")).
  - vm_compute. reflexivity.
  - right. left. reflexivity.
  - reflexivity.
  - discriminate.
Defined.

(* ===================================================================== *)
(** ** The controls of the layout                                          *)
(* ===================================================================== *)

Lemma years_temporal (rows : list record) : map t_Año (temporal_data rows) = years rows.
Proof.
  unfold temporal_data, groupby_year, years. rewrite !map_map. apply map_id.
Qed.

(** The layout of the demonstration table: two years, the latest first shown. *)
Example layout_demo :
  app_layout (Demo.table Demo.csv)
  = Ok {| year_dropdown :=
            {| options := [("2020"%string, 2020); ("2021"%string, 2021)]; value := 2021 |};
          region_dropdown :=
            {| options := [("Todas"%string, "all"%string);
                           ("Oriente"%string, "Oriente"%string);
                           ("Valle de Aburrá"%string, "Valle de Aburrá"%string)];
               value := "all"%string |} |}.
Proof. vm_compute. reflexivity. Qed.

Lemma filter_year_nil (rows : list record) (y : Z) :
  filter_year rows y = [] <-> ~ In y (years rows).
Proof.
  unfold years. rewrite years_In, in_map_iff. unfold filter_year. split.
  - intros H [r [E Hr]].
    assert (Hin : In r (filter (in_year y) rows))
      by (apply filter_In; split; [exact Hr | unfold in_year; apply Z.eqb_eq, E]).
    rewrite H in Hin. contradiction.
  - intros H. destruct (filter (in_year y) rows) as [|r l] eqn:E; [reflexivity|].
    exfalso. apply H. exists r.
    assert (Hin : In r (filter (in_year y) rows)) by (rewrite E; left; reflexivity).
    apply filter_In in Hin. destruct Hin as [Hr Hy].
    unfold in_year in Hy. apply Z.eqb_eq in Hy. auto.
Qed.

Lemma regions_In (reg : string) (rows : list record) :
  In reg (regions rows) <-> exists r, In r rows /\ NombreRegion r = reg.
Proof.
  unfold regions. rewrite names_In, in_map_iff.
  split; intros [r [H1 H2]]; exists r; auto.
Qed.

Lemma in_filter_region (rows : list record) (reg : string) (x : record) :
  reg <> "all"%string ->
  (In x (filter_region rows reg) <-> In x rows /\ NombreRegion x = reg).
Proof.
  intros H. unfold filter_region.
  destruct (String.eqb_spec reg "all") as [E|_]; [contradiction|].
  rewrite filter_In. unfold in_region. rewrite String.eqb_eq. reflexivity.
Qed.

(** X12. The region control starts on "all", which shows the whole table,
    and offers after it the regions that have a record, each once. Choosing a
    region shows the records of that region and no other, at least one,
    unless the region is itself called "all". *)
Theorem layout_regions (rows : list record) (lay : layout) :
  app_layout rows = Ok lay ->
  value (region_dropdown lay) = "all"%string /\
  filter_region rows (value (region_dropdown lay)) = rows /\
  map snd (options (region_dropdown lay)) = "all"%string :: regions rows /\
  NoDup (regions rows) /\
  (forall reg : string,
      In reg (regions rows) <-> exists r, In r rows /\ NombreRegion r = reg) /\
  (forall reg : string,
      In reg (regions rows) -> reg <> "all"%string ->
      filter_region rows reg <> [] /\
      forall x, In x (filter_region rows reg) <-> In x rows /\ NombreRegion x = reg).
Proof.
  unfold app_layout. destruct (py_max (years rows)); [|discriminate].
  intros [= <-]. cbn [region_dropdown options value].
  split; [reflexivity|]. split; [reflexivity|]. split.
  { cbn [map snd]. rewrite map_map. cbn [snd]. rewrite map_id. reflexivity. }
  split; [apply names_NoDup|]. split; [intros reg; apply regions_In|].
  intros reg Hin Hne. split; [|intros x; apply in_filter_region, Hne].
  apply regions_In in Hin. destruct Hin as [r [Hr E]].
  intros Hnil.
  assert (Hx : In r (filter_region rows reg)) by (apply in_filter_region; auto).
  rewrite Hnil in Hx. contradiction.
Qed.

Lemma layout_regions_witness :
  value (region_dropdown
           {| year_dropdown :=
                {| options := [("2020"%string, 2020); ("2021"%string, 2021)]; value := 2021 |};
              region_dropdown :=
                {| options := [("Todas"%string, "all"%string);
                               ("Oriente"%string, "Oriente"%string);
                               ("Valle de Aburrá"%string, "Valle de Aburrá"%string)];
                   value := "all"%string |} |}) = "all"%string /\
  map snd [("Todas"%string, "all"%string);
           ("Oriente"%string, "Oriente"%string);
           ("Valle de Aburrá"%string, "Valle de Aburrá"%string)]
  = "all"%string :: regions (Demo.table Demo.csv).
Proof.
  destruct (layout_regions (Demo.table Demo.csv)
           {| year_dropdown :=
                {| options := [("2020"%string, 2020); ("2021"%string, 2021)]; value := 2021 |};
              region_dropdown :=
                {| options := [("Todas"%string, "all"%string);
                               ("Oriente"%string, "Oriente"%string);
                               ("Valle de Aburrá"%string, "Valle de Aburrá"%string)];
                   value := "all"%string |} |})
    as [H1 [_ [H3 _]]].
  - vm_compute. reflexivity.
  - split; [exact H1 | exact H3].
Defined.

(** X13. A row of the file without a region is loaded under the region
    "Sin región": the region control offers that choice, and choosing it shows
    the record. *)
Theorem missing_region_reachable (csv : list raw_row) (rows : list record) (raw : raw_row) :
  load_csv csv = Ok rows ->
  In raw csv -> csv_NombreRegion raw = None ->
  exists r : record,
    load_row raw = Ok r /\
    NombreRegion r = "Sin región"%string /\
    In "Sin región"%string (regions rows) /\
    In r (filter_region rows "Sin región").
Proof.
  intros Hload Hin Hnone.
  destruct (load_csv_In_raw _ _ _ Hload Hin) as [r [Hr Hrows]].
  assert (E : NombreRegion r = "Sin región"%string).
  { destruct (load_row_fields _ _ Hr) as [_ [_ [_ [_ [_ [E _]]]]]].
    rewrite E, Hnone. reflexivity. }
  exists r. split; [exact Hr|]. split; [exact E|]. split.
  - apply regions_In. exists r. auto.
  - apply in_filter_region; [discriminate | auto].
Qed.

Lemma missing_region_reachable_witness :
  exists r : record,
    load_row (nth 1 Sample.csv (Demo.row 0 "" "" "" 0 0)) = Ok r /\
    NombreRegion r = "Sin región"%string /\
    In "Sin región"%string (regions (Demo.table Sample.csv)) /\
    In r (filter_region (Demo.table Sample.csv) "Sin región").
Proof.
  apply (missing_region_reachable Sample.csv (Demo.table Sample.csv)).
  - vm_compute. reflexivity.
  - right. left. reflexivity.
  - reflexivity.
Defined.

(* ===================================================================== *)
(** ** Totals by region                                                    *)
(* ===================================================================== *)

Section Partition.

Context {A K : Type} (f : A -> Z) (p : K -> A -> bool).

Lemma group_totals_cons (ks : list K) (r : A) (rows : list A) :
  fold_right Z.add 0 (map (fun k => fold_right Z.add 0 (map f (filter (p k) (r :: rows)))) ks)
  = fold_right Z.add 0 (map (fun k => fold_right Z.add 0 (map f (filter (p k) rows))) ks)
    + f r * Z.of_nat (List.length (filter (fun k => p k r) ks)).
Proof.
  induction ks as [|k ks IH]; [simpl; lia|].
  cbn [map fold_right]. rewrite IH. cbn [filter].
  destruct (p k r); cbn [map fold_right List.length]; lia.
Qed.

(** When every row falls in exactly one group, the totals of the groups add
    up to the total of the rows. *)
Lemma partition_total (ks : list K) (rows : list A) :
  (forall r, In r rows -> List.length (filter (fun k => p k r) ks) = 1%nat) ->
  fold_right Z.add 0 (map (fun k => fold_right Z.add 0 (map f (filter (p k) rows))) ks)
  = fold_right Z.add 0 (map f rows).
Proof.
  induction rows as [|r rows IH]; intros H.
  - clear H. cbn [filter map]. induction ks as [|k ks IHk]; simpl in *; lia.
  - rewrite group_totals_cons, IH by (intros x Hx; apply H; right; exact Hx).
    rewrite (H r (or_introl eq_refl)). cbn [map fold_right]. lia.
Qed.

End Partition.

Lemma total_concat (parts : list (list Z)) :
  fold_right Z.add 0 (List.concat parts)
  = fold_right Z.add 0 (map (fold_right Z.add 0) parts).
Proof.
  induction parts as [|p parts IH]; simpl; [reflexivity|].
  rewrite fold_right_app, <- IH.
  generalize (fold_right Z.add 0 (List.concat parts)). intros t.
  induction p as [|x p IHp]; simpl; lia.
Qed.

Lemma one_match (ks : list string) (a : string) :
  NoDup ks -> In a ks -> List.length (filter (fun k => String.eqb a k) ks) = 1%nat.
Proof.
  induction 1 as [|k ks Hk Hnd IH]; intros Hin; [contradiction|].
  cbn [filter]. destruct (String.eqb_spec a k) as [E|E].
  - subst k. cbn [List.length]. f_equal.
    assert (Hnone : forall l, ~ In a l -> filter (fun k => String.eqb a k) l = []).
    { induction l as [|x l IHl]; intros Hx; [reflexivity|].
      cbn [filter]. destruct (String.eqb_spec a x) as [E|_].
      - exfalso. apply Hx. left. congruence.
      - apply IHl. intros H. apply Hx. right. exact H. }
    rewrite (Hnone ks Hk). reflexivity.
  - apply IH. destruct Hin as [E'|Hin]; [congruence | exact Hin].
Qed.

(** The 64-bit sums of a column over the regions add up to its 64-bit sum. *)
Lemma sum64_by_region (f : record -> Z) (rows : list record) :
  sum64 (map (fun reg => sum64 (map f (filter (in_region reg) rows))) (regions rows))
  = sum64 (map f rows).
Proof.
  rewrite <- (map_map (fun reg => map f (filter (in_region reg) rows)) sum64).
  rewrite sum64_of_sums. unfold sum64. f_equal.
  rewrite total_concat, map_map.
  apply (partition_total f (fun reg r => in_region reg r)).
  intros r Hr. unfold in_region. apply one_match; [apply names_NoDup|].
  apply regions_In. exists r. auto.
Qed.

Lemma count_as_total (q : record -> bool) (rows : list record) :
  Z.of_nat (List.length (filter q rows))
  = fold_right Z.add 0 (map (fun r => if q r then 1 else 0) rows).
Proof.
  induction rows as [|r rows IH]; [reflexivity|].
  cbn [filter map fold_right]. destruct (q r); cbn [List.length]; lia.
Qed.

Lemma count_filter_as_total (q p : record -> bool) (rows : list record) :
  Z.of_nat (List.length (filter q (filter p rows)))
  = fold_right Z.add 0 (map (fun r => if q r then 1 else 0) (filter p rows)).
Proof. apply count_as_total. Qed.

(** X14. When no region is called "all", the table is split by the choices
    of the region control: over the regions, the totals of cases and of
    population of the summaries add up (as 64-bit sums) to those of the
    choice "all", and the counts of records with cases add up to its count. *)
Theorem region_totals_add_up (rows : list record) :
  (forall r, In r rows -> NombreRegion r <> "all"%string) ->
  sum64 (map (fun reg => total_casos (summary (filter_region rows reg))) (regions rows))
  = total_casos (summary (filter_region rows "all")) /\
  sum64 (map (fun reg => total_pob (summary (filter_region rows reg))) (regions rows))
  = total_pob (summary (filter_region rows "all")) /\
  fold_right Z.add 0
    (map (fun reg => municipios_afectados (summary (filter_region rows reg))) (regions rows))
  = municipios_afectados (summary (filter_region rows "all")).
Proof.
  intros Hall.
  assert (Hreg : forall reg, In reg (regions rows) ->
                   filter_region rows reg = filter (in_region reg) rows).
  { intros reg Hin. unfold filter_region.
    destruct (String.eqb_spec reg "all") as [E|_]; [|reflexivity].
    apply regions_In in Hin. destruct Hin as [r [Hr Er]].
    exfalso. apply (Hall r Hr). congruence. }
  change (filter_region rows "all") with rows.
  cbn [summary total_casos total_pob municipios_afectados].
  split; [|split].
  - rewrite <- (sum64_by_region NumeroCasos rows). f_equal.
    apply map_ext_in. intros reg Hin. rewrite (Hreg reg Hin). reflexivity.
  - rewrite <- (sum64_by_region NumeroPoblacionObjetivo rows). f_equal.
    apply map_ext_in. intros reg Hin. rewrite (Hreg reg Hin). reflexivity.
  - rewrite count_as_total.
    rewrite <- (partition_total (fun r => if has_cases r then 1 else 0)
                  (fun reg r => in_region reg r) (regions rows) rows).
    + f_equal. apply map_ext_in. intros reg Hin. rewrite (Hreg reg Hin).
      apply count_filter_as_total.
    + intros r Hr. unfold in_region. apply one_match; [apply names_NoDup|].
      apply regions_In. exists r. auto.
Qed.

Lemma region_totals_add_up_witness :
  sum64 (map (fun reg => total_casos (summary (filter_region (Demo.table Demo.csv) reg)))
           (regions (Demo.table Demo.csv)))
  = total_casos (summary (filter_region (Demo.table Demo.csv) "all")) /\
  sum64 (map (fun reg => total_pob (summary (filter_region (Demo.table Demo.csv) reg)))
           (regions (Demo.table Demo.csv)))
  = total_pob (summary (filter_region (Demo.table Demo.csv) "all")) /\
  fold_right Z.add 0
    (map (fun reg => municipios_afectados (summary (filter_region (Demo.table Demo.csv) reg)))
       (regions (Demo.table Demo.csv)))
  = municipios_afectados (summary (filter_region (Demo.table Demo.csv) "all")).
Proof.
  apply (region_totals_add_up (Demo.table Demo.csv)).
  intros r Hr. vm_compute in Hr.
  repeat (destruct Hr as [<-|Hr]; [vm_compute; discriminate|]). contradiction.
Defined.

(* ===================================================================== *)
(** ** More on the view refresh                                            *)
(* ===================================================================== *)

(** The figures of a refresh that completes, one by one. *)
Lemma refresh_figures (L : plotly) (G : globals) (rows : list record) (aggs : list muni_row)
    (y : Z) (r : string) (out : outputs (Figure L)) :
  refresh L G rows aggs y r = Ok out ->
  map_figure L G (map_rows G aggs) = Ok (map_graph out) /\
  time_figure L (temporal_data (filter_region rows r)) = Ok (time_series_graph out) /\
  px_histogram L (filter_year (filter_region rows r) y) = Ok (distribution_graph out) /\
  px_box L (filter_region rows r) = Ok (region_boxplot out) /\
  px_scatter L (filter_year (filter_region rows r) y) = Ok (scatter_plot out).
Proof.
  unfold refresh.
  destruct (map_figure L G (map_rows G aggs)); cbn [rbind]; [|discriminate].
  destruct (time_figure L _); cbn [rbind]; [|discriminate].
  destruct (px_histogram L _); cbn [rbind]; [|discriminate].
  destruct (px_box L _); cbn [rbind]; [|discriminate].
  destruct (px_scatter L _); cbn [rbind]; [|discriminate].
  intros [= <-]. repeat split; reflexivity.
Qed.

Lemma completed_outputs (L : plotly) (G : globals) (rows : list record) (aggs : list muni_row)
    (h : heap) (y : Z) (r : string) :
  loaded rows aggs h -> completes L G y r h ->
  refresh L G rows aggs y r = Ok (fst (update_dashboard L G y r h)).
Proof.
  intros Hl Hc.
  destruct (completes_refresh L G rows aggs y r h Hl Hc) as [out Eout].
  destruct (update_dashboard_run L G rows aggs y r h Hl) as [ext E].
  rewrite E, Eout. reflexivity.
Qed.

(** X15. With the region fixed, two refreshes that complete for the years
    [y1] and [y2] return the same yearly series and the same box plot: both
    are drawn from the filtered set, which the year does not enter. *)
Theorem series_and_box_same_for_every_year (L : plotly) (G : globals) (rows : list record)
    (aggs : list muni_row) (h : heap) (r : string) (y1 y2 : Z) :
  loaded rows aggs h ->
  completes L G y1 r h -> completes L G y2 r h ->
  time_series_graph (fst (update_dashboard L G y1 r h))
  = time_series_graph (fst (update_dashboard L G y2 r h)) /\
  region_boxplot (fst (update_dashboard L G y1 r h))
  = region_boxplot (fst (update_dashboard L G y2 r h)) /\
  time_figure L (temporal_data (filter_region rows r))
  = Ok (time_series_graph (fst (update_dashboard L G y1 r h))) /\
  px_box L (filter_region rows r) = Ok (region_boxplot (fst (update_dashboard L G y1 r h))).
Proof.
  intros Hl H1 H2.
  destruct (refresh_figures L G rows aggs y1 r _ (completed_outputs L G rows aggs h y1 r Hl H1))
    as [_ [T1 [_ [B1 _]]]].
  destruct (refresh_figures L G rows aggs y2 r _ (completed_outputs L G rows aggs h y2 r Hl H2))
    as [_ [T2 [_ [B2 _]]]].
  repeat split; congruence.
Qed.

Lemma series_and_box_same_for_every_year_witness :
  time_series_graph (fst (update_dashboard Demo.lib Demo.shapes 2020 "Oriente" (startup (Demo.table Demo.csv))))
  = time_series_graph (fst (update_dashboard Demo.lib Demo.shapes 2021 "Oriente" (startup (Demo.table Demo.csv)))) /\
  region_boxplot (fst (update_dashboard Demo.lib Demo.shapes 2020 "Oriente" (startup (Demo.table Demo.csv))))
  = region_boxplot (fst (update_dashboard Demo.lib Demo.shapes 2021 "Oriente" (startup (Demo.table Demo.csv)))) /\
  time_figure Demo.lib (temporal_data (filter_region (Demo.table Demo.csv) "Oriente"))
  = Ok (time_series_graph
          (fst (update_dashboard Demo.lib Demo.shapes 2020 "Oriente" (startup (Demo.table Demo.csv))))) /\
  px_box Demo.lib (filter_region (Demo.table Demo.csv) "Oriente")
  = Ok (region_boxplot
          (fst (update_dashboard Demo.lib Demo.shapes 2020 "Oriente" (startup (Demo.table Demo.csv))))).
Proof.
  apply (series_and_box_same_for_every_year Demo.lib Demo.shapes (Demo.table Demo.csv)
           (build_muni_agg (Demo.table Demo.csv)) (startup (Demo.table Demo.csv)) "Oriente" 2020 2021).
  - apply startup_loaded.
  - eexists. eexists. vm_compute. reflexivity.
  - eexists. eexists. vm_compute. reflexivity.
Defined.

(** X16. A refresh that completes for a year in which the filtered set has
    no record draws the histogram and the scatter plot of no data, while its
    yearly series is still the one of the whole filtered set; the year slice
    is empty exactly when the year is not a point of that series. *)
Theorem year_without_records (L : plotly) (G : globals) (rows : list record)
    (aggs : list muni_row) (h : heap) (y : Z) (r : string) :
  loaded rows aggs h -> completes L G y r h ->
  (filter_year (filter_region rows r) y = [] <->
   ~ In y (map t_Año (temporal_data (filter_region rows r)))) /\
  (~ In y (map t_Año (temporal_data (filter_region rows r))) ->
   px_histogram L [] = Ok (distribution_graph (fst (update_dashboard L G y r h))) /\
   px_scatter L [] = Ok (scatter_plot (fst (update_dashboard L G y r h))) /\
   time_figure L (temporal_data (filter_region rows r))
   = Ok (time_series_graph (fst (update_dashboard L G y r h)))).
Proof.
  intros Hl Hc.
  assert (Hiff : filter_year (filter_region rows r) y = [] <->
                 ~ In y (map t_Año (temporal_data (filter_region rows r))))
    by (rewrite years_temporal; apply filter_year_nil).
  split; [exact Hiff|]. intros Hno.
  destruct (refresh_figures L G rows aggs y r _ (completed_outputs L G rows aggs h y r Hl Hc))
    as [_ [T [D [_ S]]]].
  rewrite (proj2 Hiff Hno) in D, S. auto.
Qed.

(** The year 2024 has no record in the demonstration table. *)
Lemma year_without_records_witness :
  px_histogram Demo.lib []
  = Ok (distribution_graph (fst (update_dashboard Demo.lib Demo.shapes 2024 "all" (startup (Demo.table Demo.csv))))) /\
  px_scatter Demo.lib []
  = Ok (scatter_plot (fst (update_dashboard Demo.lib Demo.shapes 2024 "all" (startup (Demo.table Demo.csv))))) /\
  time_figure Demo.lib (temporal_data (filter_region (Demo.table Demo.csv) "all"))
  = Ok (time_series_graph (fst (update_dashboard Demo.lib Demo.shapes 2024 "all" (startup (Demo.table Demo.csv))))).
Proof.
  apply (proj2 (year_without_records Demo.lib Demo.shapes (Demo.table Demo.csv)
                  (build_muni_agg (Demo.table Demo.csv)) (startup (Demo.table Demo.csv)) 2024 "all"
                  (startup_loaded (Demo.table Demo.csv))
                  (ex_intro _ _ (ex_intro _ _ eq_refl)))).
  vm_compute. intros [H|[H|[]]]; discriminate.
Defined.

Lemma run_refreshes_extends (L : plotly) (G : globals) (rows : list record)
    (aggs : list muni_row) (sels : list (Z * string)) (h : heap) :
  loaded rows aggs h -> exists ext, run_refreshes L G sels h = h ++ ext.
Proof.
  revert h. induction sels as [|[y r] sels IH]; intros h Hl.
  - exists []. symmetry. apply app_nil_r.
  - cbn [run_refreshes fold_left fst snd].
    destruct (update_dashboard_run L G rows aggs y r h Hl) as [ext E].
    rewrite E. cbn [snd].
    destruct (IH (h ++ ext) (loaded_app rows aggs h ext Hl)) as [ext' E'].
    unfold run_refreshes in E'. rewrite E'. exists (ext ++ ext'). apply eq_sym, app_assoc.
Qed.

(** X17. What a refresh returns does not depend on the refreshes that ran
    before it, whatever their selections and whether they failed: after any
    sequence of refreshes the loaded objects are still in place, and the next
    refresh returns what it would have returned first. *)
Theorem refresh_after_any_history (L : plotly) (G : globals) (rows : list record)
    (aggs : list muni_row) (h : heap) (sels : list (Z * string)) (y : Z) (r : string) :
  loaded rows aggs h ->
  fst (update_dashboard L G y r (run_refreshes L G sels h)) = fst (update_dashboard L G y r h) /\
  (exists ext, run_refreshes L G sels h = h ++ ext).
Proof.
  intros Hl.
  destruct (run_refreshes_extends L G rows aggs sels h Hl) as [ext E].
  split; [|exists ext; exact E]. rewrite E.
  destruct (update_dashboard_run L G rows aggs y r h Hl) as [e1 E1].
  destruct (update_dashboard_run L G rows aggs y r (h ++ ext) (loaded_app rows aggs h ext Hl))
    as [e2 E2].
  rewrite E1, E2. reflexivity.
Qed.

(** A failed refresh (the negative count of 2021) and a refresh for another
    year, then the year 2020. *)
Lemma refresh_after_any_history_witness :
  fst (update_dashboard Demo.lib Demo.shapes 2020 "all"
         (run_refreshes Demo.lib Demo.shapes [(2021, "all"%string); (2019, "Oriente"%string)]
            (startup (Demo.table Demo.csv_negative))))
  = fst (update_dashboard Demo.lib Demo.shapes 2020 "all" (startup (Demo.table Demo.csv_negative))) /\
  (exists ext,
      run_refreshes Demo.lib Demo.shapes [(2021, "all"%string); (2019, "Oriente"%string)]
        (startup (Demo.table Demo.csv_negative))
      = startup (Demo.table Demo.csv_negative) ++ ext).
Proof.
  apply (refresh_after_any_history Demo.lib Demo.shapes (Demo.table Demo.csv_negative)
           (build_muni_agg (Demo.table Demo.csv_negative))).
  apply startup_loaded.
Defined.

(* ===================================================================== *)
(** ** Records with cases and municipalities with cases                    *)
(* ===================================================================== *)

Lemma insert_key_length_le {K : Type} (cmp : K -> K -> comparison) (k : K) (ks : list K) :
  (List.length (insert_key cmp k ks) <= S (List.length ks))%nat.
Proof.
  induction ks as [|k' ks IH]; simpl; [lia|].
  destruct (cmp k k'); simpl; lia.
Qed.

Lemma sorted_unique_length_le {K : Type} (cmp : K -> K -> comparison) (l : list K) :
  (List.length (sorted_unique cmp l) <= List.length l)%nat.
Proof.
  induction l as [|k l IH]; simpl; [lia|].
  assert (H := insert_key_length_le cmp k (sorted_unique cmp l)). lia.
Qed.

Lemma insert_code_length (k : str) (ks : list str) :
  ~ In k ks -> List.length (insert_key str_compare k ks) = S (List.length ks).
Proof.
  induction ks as [|k' ks IH]; intros H; simpl; [reflexivity|].
  destruct (str_compare k k') eqn:E; simpl.
  - exfalso. apply H. left. symmetry. apply str_compare_eq, E.
  - reflexivity.
  - rewrite IH; [reflexivity|]. intros Hin. apply H. right. exact Hin.
Qed.

Lemma codes_length_NoDup (l : list str) :
  NoDup l -> List.length (sorted_unique str_compare l) = List.length l.
Proof.
  induction 1 as [|k l Hk Hnd IH]; simpl; [reflexivity|].
  rewrite insert_code_length, IH; [reflexivity|].
  intros Hin. apply (proj1 (codes_In _ _)) in Hin. contradiction.
Qed.

Lemma defined_codes_length_le (rows : list record) :
  (List.length (defined_codes rows) <= List.length rows)%nat.
Proof.
  induction rows as [|r rows IH]; simpl; [lia|].
  destruct (CodigoMunicipio r); simpl; lia.
Qed.

Lemma nunique_codes (rows : list record) :
  nunique (map CodigoMunicipio rows)
  = Z.of_nat (List.length (sorted_unique str_compare (defined_codes rows))).
Proof. unfold nunique. rewrite defined_codes_column. reflexivity. Qed.

Lemma filter_length_le {A : Type} (q : A -> bool) (l : list A) :
  (List.length (filter q l) <= List.length l)%nat.
Proof.
  induction l as [|x l IH]; simpl; [lia|].
  destruct (q x); simpl; lia.
Qed.

Lemma defined_codes_once (q : record -> bool) (rows : list record) :
  (forall x, In x rows -> CodigoMunicipio x <> None) ->
  NoDup (map CodigoMunicipio rows) ->
  NoDup (defined_codes (filter q rows)) /\
  List.length (defined_codes (filter q rows)) = List.length (filter q rows).
Proof.
  induction rows as [|r rows IH]; intros Hdef Hnd; [split; [constructor | reflexivity]|].
  inversion Hnd as [|? ? Hr Hnd' Heq]; subst.
  destruct (IH (fun x Hx => Hdef x (or_intror Hx)) Hnd') as [IH1 IH2].
  cbn [filter]. destruct (q r); [|split; assumption].
  cbn [defined_codes]. destruct (CodigoMunicipio r) as [c|] eqn:Ec.
  - split; [|cbn [List.length]; congruence].
    constructor; [|exact IH1]. intros Hin. apply Hr.
    apply in_defined_codes in Hin. destruct Hin as [x [Hx Ex]].
    apply filter_In in Hx. destruct Hx as [Hx _].
    rewrite <- Ex. apply in_map, Hx.
  - exfalso. apply (Hdef r (or_introl eq_refl)). exact Ec.
Qed.

(** X19. The count the summary shows as affected municipalities is the
    number of records with cases: it is never below the number of distinct
    municipalities with cases (which is at most the number of distinct
    municipalities) and never above the number of records, and the two agree
    when every record has a code and no code occurs twice in the filtered
    set. *)
Theorem affected_counts_relation (F : list record) :
  0 <= affected_municipalities F /\
  affected_municipalities F <= municipios_afectados (summary F) /\
  municipios_afectados (summary F) <= Z.of_nat (List.length F) /\
  affected_municipalities F <= total_mun (summary F) /\
  ((forall x, In x F -> CodigoMunicipio x <> None) ->
   NoDup (map CodigoMunicipio F) ->
   municipios_afectados (summary F) = affected_municipalities F).
Proof.
  unfold affected_municipalities. cbn [summary municipios_afectados total_mun].
  rewrite !nunique_codes.
  split; [lia|]. split; [|split; [|split]].
  - assert (H1 := sorted_unique_length_le str_compare (defined_codes (filter has_cases F))).
    assert (H2 := defined_codes_length_le (filter has_cases F)). lia.
  - assert (H := filter_length_le has_cases F). lia.
  - apply inj_le. apply NoDup_incl_length; [apply codes_NoDup|].
    intros c Hc. apply codes_In. apply (proj1 (codes_In _ _)) in Hc.
    apply in_defined_codes in Hc. destruct Hc as [x [Hx Ex]].
    apply filter_In in Hx. destruct Hx as [Hx _].
    apply in_defined_codes. exists x. auto.
  - intros Hdef Hnd.
    destruct (defined_codes_once has_cases F Hdef Hnd) as [H1 H2].
    rewrite (codes_length_NoDup _ H1), H2. reflexivity.
Qed.

(** In a single year of the demonstration table every municipality has one
    record: the two counts agree. *)
Lemma affected_counts_relation_witness :
  municipios_afectados (summary (filter_year (Demo.table Demo.csv) 2021))
  = affected_municipalities (filter_year (Demo.table Demo.csv) 2021).
Proof.
  apply (proj2 (proj2 (proj2 (proj2
           (affected_counts_relation (filter_year (Demo.table Demo.csv) 2021)))))).
  - intros x Hx. vm_compute in Hx.
    repeat (destruct Hx as [<-|Hx]; [vm_compute; discriminate|]). contradiction.
  - vm_compute. repeat constructor; simpl; intuition discriminate.
Defined.

